(** * The activities client (src/static/app.js): session, roster and notices

    A shallow embedding of the script that drives the activities page.  The
    script is one [DOMContentLoaded] listener: it keeps two variables
    ([authToken], [isAuthenticated]), one [localStorage] item, a handful of
    document elements, and a set of [async] handlers that suspend on [fetch]
    and resume when the reply arrives.

    The embedding follows that shape.  [Js] holds the values a JSON reply can
    carry and the few operations of the language the script applies to them.
    [App] holds the state, a small state-and-exception monad in which each
    handler is written statement by statement, and the event loop: a handler
    runs up to its [await], the request is recorded as in flight, and the rest
    of the handler runs when the event [Settle] delivers the reply. *)

From Stdlib Require Import String Ascii List ZArith NArith Bool Lia.
From Stdlib Require Import DecimalString.
From coqutil Require Import Datatypes.RecordSetters.
Import ListNotations.
Import RecordSetters.TriangleBracketNotations.

Open Scope string_scope.
Open Scope list_scope.

(** ** JavaScript values *)

Module Js.

(** What [response.json()] can resolve to, plus [undefined] (the value of a
    missing property).  [JObj] lists the own properties of the object in
    enumeration order, each key once; none of them is named [toString] (an
    object that carries one cannot be printed by the engine).  Numbers are
    the integer ones: the script tests numbers for truthiness and sign, and
    prints them. *)
#[warnings="-register-all"]
Inductive value : Type :=
| JUndefined
| JNull
| JBool (b : bool)
| JNum (z : Z)
| JStr (s : string)
| JArr (items : list value)
| JObj (fields : list (string * value)).

(** ToBoolean, as applied by [if (v)] and [v || w]. *)
Definition truthy (v : value) : bool :=
  match v with
  | JUndefined | JNull => false
  | JBool b => b
  | JNum z => negb (z =? 0)%Z
  | JStr s => negb (s =? "")
  | JArr _ | JObj _ => true
  end.

(** [v || w] *)
Definition or_else (v w : value) : value := if truthy v then v else w.

Fixpoint lookup (k : string) (fields : list (string * value)) : value :=
  match fields with
  | [] => JUndefined
  | (k', v) :: rest => if k =? k' then v else lookup k rest
  end.

(** [v.k] for the property names the script reads (none of them is an array
    index or a method).  [None] is the TypeError raised on [undefined] and
    [null].  The [length] of a string counts its bytes here and its UTF-16
    units in the engine; the script only asks whether it is positive. *)
Definition get (v : value) (k : string) : option value :=
  match v with
  | JUndefined | JNull => None
  | JObj fields => Some (lookup k fields)
  | JStr s => Some (if k =? "length" then JNum (Z.of_nat (String.length s)) else JUndefined)
  | JArr items => Some (if k =? "length" then JNum (Z.of_nat (List.length items)) else JUndefined)
  | JBool _ | JNum _ => Some JUndefined
  end.

(** [v.k] where [v] is known not to be [undefined] or [null]. *)
Definition lookup_in (v : value) (k : string) : value :=
  match get v k with
  | Some w => w
  | None => JUndefined
  end.

Definition index_key (i : nat) : string := NilEmpty.string_of_uint (Nat.to_uint i).

Definition indexed (items : list value) : list (string * value) :=
  combine (map index_key (seq 0 (List.length items))) items.

(** [Object.entries(v)]: the properties of an object, the indexed elements of
    an array or of a string, nothing for a number or a boolean, and a
    TypeError ([None]) for [undefined] and [null].  (The script throws on
    the first character of a string, so how the rest is cut does not show.) *)
Definition entries (v : value) : option (list (string * value)) :=
  match v with
  | JUndefined | JNull => None
  | JObj fields => Some fields
  | JArr items => Some (indexed items)
  | JStr s => Some (indexed (map (fun c => JStr (String c "")) (list_ascii_of_string s)))
  | JBool _ | JNum _ => Some []
  end.

Definition is_array (v : value) : bool :=
  match v with
  | JArr _ => true
  | _ => false
  end.

Definition is_number (v : value) : bool :=
  match v with
  | JNum _ => true
  | _ => false
  end.

Notation "'let?' x := c 'in' k" :=
  (match c with Some x => k | None => None end)
  (at level 10, x name, c at level 100, k at level 200, only parsing).

(** *** Strings *)

(** A string is held as the bytes of its UTF-8 encoding.  A surrogate that
    is not half of a pair has no such encoding; it is held by the three
    bytes its code would take: ED, a byte from A0 to BF, and one more. *)
Fixpoint has_lone_surrogate (s : string) : bool :=
  match s with
  | String c (String d _ as rest) =>
      ((N_of_ascii c =? 237) && (160 <=? N_of_ascii d) && (N_of_ascii d <=? 191))%N
      || has_lone_surrogate rest
  | _ => false
  end.

(** The characters [encodeURIComponent] leaves as they are: letters, digits
    and [-_.!~*'()]. *)
Definition unreserved (c : ascii) : bool :=
  let n := N_of_ascii c in
  (((65 <=? n) && (n <=? 90)) || ((97 <=? n) && (n <=? 122)) || ((48 <=? n) && (n <=? 57))
   || existsb (N.eqb n) [45; 95; 46; 33; 126; 42; 39; 40; 41])%N.

Definition hex_digit (n : N) : ascii :=
  ascii_of_N (if n <? 10 then 48 + n else 55 + n)%N.

Fixpoint percent_encode (s : string) : string :=
  match s with
  | EmptyString => EmptyString
  | String c rest =>
      if unreserved c then String c (percent_encode rest)
      else String "%" (String (hex_digit (N_of_ascii c / 16))
                         (String (hex_digit (N_of_ascii c mod 16)) (percent_encode rest)))
  end.

(** [encodeURIComponent(s)]: every other byte as [%XX]; a URIError ([None])
    when [s] has a surrogate that is not half of a pair. *)
Definition encodeURIComponent (s : string) : option string :=
  if has_lone_surrogate s then None else Some (percent_encode s).

(** The characters the HTML parser does not take as they are, in a text or
    in a quoted attribute value: the ampersand, the left angle bracket, the
    double quote, NUL and the carriage return. *)
Definition markup_character (c : ascii) : bool :=
  existsb (Ascii.eqb c) ["&"; "<"; "034"; "000"; "013"]%char.

(** A text that the parser takes as it is: interpolated between two tags or
    between the quotes of an attribute, it is the text of the node and the
    value of the attribute.  (The model says so of no text with a markup
    character or with a surrogate that is not half of a pair.) *)
Definition plain (s : string) : bool :=
  forallb (fun c => negb (markup_character c)) (list_ascii_of_string s)
  && negb (has_lone_surrogate s).

(** *** Printing *)

Section Printing.

(** Number::toString beyond 2^53, where it rounds or uses an exponent. *)
Variable number_to_string : Z -> string.

Definition numeral (z : Z) : string :=
  if (Z.abs z <=? 9007199254740992)%Z
  then NilZero.string_of_int (Z.to_int z)
  else number_to_string z.

(** An element inside [Array.prototype.join]: [undefined] and [null] print
    as nothing. *)
Definition joined (print : value -> string) (v : value) : string :=
  match v with
  | JUndefined | JNull => ""
  | _ => print v
  end.

(** [String(v)], which is also what [`${v}`] interpolates. *)
Fixpoint ToString (v : value) : string :=
  match v with
  | JUndefined => "undefined"
  | JNull => "null"
  | JBool true => "true"
  | JBool false => "false"
  | JNum z => numeral z
  | JStr s => s
  | JArr items => String.concat "," (map (joined ToString) items)
  | JObj _ => "[object Object]"
  end.

End Printing.

(** [String(v)] is plain (a number is, however it is printed). *)
Fixpoint prints_plain (v : value) : bool :=
  match v with
  | JStr s => plain s
  | JArr items => forallb prints_plain items
  | _ => true
  end.

(** Every string of [v], key or value, is plain. *)
Fixpoint markup_free (v : value) : bool :=
  match v with
  | JStr s => plain s
  | JArr items => forallb markup_free items
  | JObj fields => forallb (fun field => plain (fst field) && markup_free (snd field)) fields
  | _ => true
  end.

End Js.

Export Js.

(** ** The page, the script state and the host *)

Module App.

(** An element of which the script touches the text and the class list.
    [className = c] replaces the whole list; [classList.add] and
    [classList.remove] work on one token. *)
Record element : Type := {
  textContent : string;
  classList : list string
}.

Definition set_className (c : string) (el : element) : element :=
  el <| classList := [c] |>.

Definition classList_add (c : string) (el : element) : element :=
  if existsb (String.eqb c) (classList el) then el
  else el <| classList ::= fun l => l ++ [c] |>.

Definition classList_remove (c : string) (el : element) : element :=
  el <| classList ::= filter (fun c' => negb (c =? c')) |>.

Definition has_class (c : string) (el : element) : bool :=
  existsb (String.eqb c) (classList el).

(** The stylesheet hides what carries the class [hidden]. *)
Definition visible (el : element) : bool := negb (has_class "hidden" el).

(** A [.delete-btn] element: what [getAttribute] answers for [data-activity]
    and [data-email] ([None] is the [null] of a missing attribute) and its
    [style.display]. *)
Record button : Type := {
  data_activity : option string;
  data_email : option string;
  style_display : string
}.

Record participant_li : Type := {
  participant_email : string;        (* the text of [span.participant-email] *)
  delete_btn : button
}.

(** One [div.activity-card] as the parser builds it from markup whose
    interpolated texts are plain.  [spots_left] keeps the two operands of
    [details.max_participants - details.participants.length]; an empty
    [card_participants] is the paragraph "No participants yet". *)
Record card : Type := {
  card_name : string;
  card_description : string;
  card_schedule : string;
  spots_left : value * value;
  card_participants : list participant_li
}.

(** The children of [#activities-list].  [MarkupCard] is the card of an
    entry one of whose texts is not plain: what the parser makes of such
    markup is the host's business, and the model keeps the entry and the
    [.delete-btn] elements the host found in the result.  (What else such
    markup brings into the document is not followed; see [event].) *)
Inductive node : Type :=
| ActivityCard (c : card)
| MarkupCard (name : string) (details : value) (buttons : list button)
| Paragraph (text : string).

(** An [<option>] of [#activity]. *)
Record select_option : Type := {
  option_value : string;
  option_text : string
}.

(** What the model leaves to the host:
    - ECMAScript's [v > 0] for a string or an array [v] (ToPrimitive followed
      by StringToNumber), which the script can meet in one place only, the
      [length] of a [participants] value that is an object;
    - Number::toString for an integer beyond 2^53;
    - the [.delete-btn] elements, in document order, of the subtree the HTML
      parser builds from the markup of a card (written for [auth], [name],
      [details]) one of whose texts has a markup character.
    Every result below holds whatever the host answers. *)
Record engine : Type := {
  to_number_positive : value -> bool;
  number_to_string : Z -> string;
  rendered_buttons : bool -> string -> value -> list button
}.

(** The only callback the script ever hands to [setTimeout]. *)
Inductive callback : Type :=
| HideMessage.   (* () => messageDiv.classList.add("hidden") *)

(** Requests, by endpoint.  [bearer] is the value interpolated after
    "Bearer " in the Authorization header; [activity] and [email] are the two
    components of the URL as [encodeURIComponent] returned them. *)
Inductive request : Type :=
| GET_auth_verify (bearer : value)
| POST_auth_login (username password : string)
| POST_auth_logout (bearer : value)
| GET_activities
| DELETE_unregister (activity email : string) (bearer : value)
| POST_signup (activity email : string) (bearer : value).

(** The handler suspended on a request. *)
Inductive continuation : Type :=
| AwaitVerify
| AwaitLogin
| AwaitLogout
| AwaitActivities
| AwaitUnregister
| AwaitSignup.

(** How a request settles: [fetch] rejects, or a response arrives with its
    [ok] flag and the result of [response.json()] ([None] when the body does
    not parse). *)
Inductive reply : Type :=
| NetworkError
| Response (ok : bool) (body : option value).

Record state : Type := {
  (* variables of the listener *)
  authToken : value;
  isAuthenticated : bool;
  (* the localStorage item "authToken" *)
  localStorage : option string;
  (* document *)
  activitiesList : list node;
  activitySelect : list select_option;
  signupForm : string * nat;          (* #email, selected index of #activity *)
  messageDiv : element;
  loginBtn : element;
  loginModal : element;
  loginForm : string * string;        (* #login-username, #login-password *)
  loginMessage : element;
  userInfo : element;
  usernameDisplay : element;
  authNotice : element;
  signupSubmitBtn_disabled : bool;
  (* host *)
  clock : N;                                   (* milliseconds *)
  timers : list (N * callback);                (* due time, callback *)
  next_request : nat;
  in_flight : list (nat * continuation);
  requests : list request;                     (* every fetch issued, oldest first *)
  console : list string                        (* console.error labels *)
}.

(** *** Statements *)

(** A statement either completes with a result or throws; in both cases the
    writes it made stay. *)
Inductive outcome (A : Type) : Type :=
| Returned (a : A)
| Thrown.
Arguments Returned {A} a.
Arguments Thrown {A}.

Definition js (A : Type) : Type := state -> outcome A * state.

Definition ret {A} (a : A) : js A := fun s => (Returned a, s).

Definition bind {A B} (c : js A) (k : A -> js B) : js B :=
  fun s =>
    match c s with
    | (Returned a, s') => k a s'
    | (Thrown, s') => (Thrown, s')
    end.

Definition throw {A} : js A := fun s => (Thrown, s).

(** [try { body } catch (error) { handler }] *)
Definition try_catch (body handler : js unit) : js unit :=
  fun s =>
    match body s with
    | (Returned a, s') => (Returned a, s')
    | (Thrown, s') => handler s'
    end.

Definition exec (c : js unit) (s : state) : state := snd (c s).

Declare Scope js_scope.
Delimit Scope js_scope with js.
Notation "x <- c ;; k" := (bind c (fun x => k))
  (at level 61, c at next level, right associativity) : js_scope.
Notation "c ;; k" := (bind c (fun _ => k))
  (at level 61, right associativity) : js_scope.
Open Scope js_scope.

Definition read {E} (field : state -> E) : js E := fun s => (Returned (field s), s).

Definition modify {E} (field : state -> E) {set : Setter field} (f : E -> E) : js unit :=
  fun s => (Returned tt, set f s).

Definition write {E} (field : state -> E) {set : Setter field} (v : E) : js unit :=
  modify field (fun _ => v).

(** A property read inside a statement. *)
Definition prop (v : value) (k : string) : js value :=
  match Js.get v k with
  | Some w => ret w
  | None => throw
  end.

(** [encodeURIComponent(s)] inside a statement. *)
Definition encode (s : string) : js string :=
  match encodeURIComponent s with
  | Some component => ret component
  | None => throw
  end.

Fixpoint forEach {A} (l : list A) (body : A -> js unit) : js unit :=
  match l with
  | [] => ret tt
  | a :: rest => body a ;; forEach rest body
  end.

Definition console_error (label : string) : js unit :=
  modify console (fun l => l ++ [label]).

Definition setTimeout (cb : callback) (ms : N) : js unit :=
  fun s => (Returned tt, s <| timers ::= fun l => l ++ [(clock s + ms, cb)%N] |>).

(** [fetch(...)] up to the [await]: the request leaves and the handler is
    parked under a fresh number. *)
Definition fetch (r : request) (k : continuation) : js unit :=
  fun s => (Returned tt,
            s <| requests ::= fun l => l ++ [r] |>
              <| in_flight ::= fun l => l ++ [(next_request s, k)] |>
              <| next_request ::= S |>).

(** [await fetch(...)] resumed: the response, or the rejection thrown. *)
Definition awaited (r : reply) : js (bool * option value) :=
  match r with
  | NetworkError => throw
  | Response ok body => ret (ok, body)
  end.

(** [await response.json()] *)
Definition json (response : bool * option value) : js value :=
  match snd response with
  | Some v => ret v
  | None => throw
  end.

(** ** The script *)

Section Script.

Variable host : engine.

(** [v > 0] *)
Definition gt_zero (v : value) : bool :=
  match v with
  | JNum z => (0 <? z)%Z
  | JBool b => b
  | JUndefined | JNull | JObj _ => false
  | JStr _ | JArr _ => to_number_positive host v
  end.

(** [String(v)] *)
Definition to_string (v : value) : string := ToString (number_to_string host) v.

(** The text an element holds after [el.textContent = v]: [null] and
    [undefined] clear it, anything else is printed. *)
Definition text_of (v : value) : string :=
  match v with
  | JUndefined | JNull => ""
  | _ => to_string v
  end.

Definition set_textContent (v : value) (el : element) : element :=
  el <| textContent := text_of v |>.

(** [localStorage.setItem("authToken", v)] stores [String(v)]. *)
Definition setItem (v : value) : js unit :=
  write localStorage (Some (to_string v)).

(** *** Authentication state (lines 17-81) *)

Definition show_display (auth : bool) : string := if auth then "inline" else "none".

Definition restyle_button (auth : bool) (b : button) : button :=
  b <| style_display := show_display auth |>.

Definition restyle (auth : bool) (n : node) : node :=
  match n with
  | ActivityCard c =>
      ActivityCard
        (c <| card_participants ::=
                map (fun li => li <| delete_btn ::= restyle_button auth |>) |>)
  | MarkupCard name details buttons =>
      MarkupCard name details (map (restyle_button auth) buttons)
  | Paragraph text => Paragraph text
  end.

Definition updateDeleteButtonsVisibility : js unit :=
  auth <- read isAuthenticated ;;
  modify activitiesList (map (restyle auth)).

Definition updateUIForAuth (username : value) : js unit :=
  (if truthy username then
     modify loginBtn (classList_add "hidden") ;;
     modify userInfo (classList_remove "hidden") ;;
     modify usernameDisplay (set_textContent (JStr (String.append "👤 " (to_string username)))) ;;
     modify authNotice (classList_add "hidden") ;;
     write signupSubmitBtn_disabled false
   else
     modify loginBtn (classList_remove "hidden") ;;
     modify userInfo (classList_add "hidden") ;;
     modify authNotice (classList_remove "hidden") ;;
     write signupSubmitBtn_disabled true) ;;
  updateDeleteButtonsVisibility.

(** [checkAuth] up to its [await] ... *)
Definition checkAuth : js unit :=
  token <- read authToken ;;
  if truthy token then fetch (GET_auth_verify token) AwaitVerify
  else updateUIForAuth JNull.

(** ... and from the reply on. *)
Definition checkAuth_resume (r : reply) : js unit :=
  try_catch
    (response <- awaited r ;;
     result <- json response ;;
     authenticated <- prop result "authenticated" ;;
     if truthy authenticated then
       write isAuthenticated true ;;
       username <- prop result "username" ;;
       updateUIForAuth username
     else
       write localStorage None ;;
       write authToken JNull ;;
       write isAuthenticated false ;;
       updateUIForAuth JNull)
    (console_error "Error verifying auth:" ;;
     write isAuthenticated false ;;
     updateUIForAuth JNull).

(** *** The login modal (lines 83-149) *)

Definition loginBtn_click : js unit :=
  modify loginModal (classList_remove "hidden").

Definition closeModal_click : js unit :=
  modify loginModal (classList_add "hidden") ;;
  write loginForm ("", "") ;;
  modify loginMessage (classList_add "hidden").

Definition window_click (target_is_modal : bool) : js unit :=
  if target_is_modal then
    modify loginModal (classList_add "hidden") ;;
    write loginForm ("", "") ;;
    modify loginMessage (classList_add "hidden")
  else ret tt.

Definition loginForm_submit : js unit :=
  form <- read loginForm ;;
  fetch (POST_auth_login (fst form) (snd form)) AwaitLogin.

Definition loginForm_resume (r : reply) : js unit :=
  try_catch
    (response <- awaited r ;;
     result <- json response ;;
     if fst response then
       token <- prop result "token" ;;
       write authToken token ;;
       setItem token ;;
       write isAuthenticated true ;;
       username <- prop result "username" ;;
       updateUIForAuth username ;;
       modify loginModal (classList_add "hidden") ;;
       write loginForm ("", "") ;;
       modify loginMessage (classList_add "hidden") ;;
       modify messageDiv (set_textContent (JStr "Login successful! You can now register students.")) ;;
       modify messageDiv (set_className "success") ;;
       modify messageDiv (classList_remove "hidden") ;;
       setTimeout HideMessage 3000
     else
       detail <- prop result "detail" ;;
       modify loginMessage (set_textContent (or_else detail (JStr "Login failed"))) ;;
       modify loginMessage (set_className "error") ;;
       modify loginMessage (classList_remove "hidden"))
    (modify loginMessage (set_textContent (JStr "Login failed. Please try again.")) ;;
     modify loginMessage (set_className "error") ;;
     modify loginMessage (classList_remove "hidden") ;;
     console_error "Error logging in:").

(** *** Logout (lines 151-175) *)

Definition logoutBtn_click : js unit :=
  token <- read authToken ;;
  fetch (POST_auth_logout token) AwaitLogout.

Definition logoutBtn_resume (r : reply) : js unit :=
  try_catch
    (_ <- awaited r ;; ret tt)
    (console_error "Error logging out:") ;;
  write localStorage None ;;
  write authToken JNull ;;
  write isAuthenticated false ;;
  updateUIForAuth JNull ;;
  modify messageDiv (set_textContent (JStr "Logged out successfully.")) ;;
  modify messageDiv (set_className "success") ;;
  modify messageDiv (classList_remove "hidden") ;;
  setTimeout HideMessage 3000.

(** *** The roster (lines 177-238) *)

Definition fetchActivities : js unit :=
  fetch GET_activities AwaitActivities.

(** [details.participants.map(...)] has an element per element of an array;
    anything else has no [map] to call ([None] is the TypeError). *)
Definition participants_array (participants : value) : option (list value) :=
  match participants with
  | JArr emails => Some emails
  | _ => None
  end.

(** The list item of line 203, parsed: [email] is the printed element. *)
Definition participant_item (auth : bool) (name : string) (email : string) : participant_li :=
  {| participant_email := email;
     delete_btn := {| data_activity := Some name;
                      data_email := Some email;
                      style_display := show_display auth |} |}.

(** The body of the [forEach] up to [activityCard.innerHTML = ...], which
    reads [isAuthenticated] (here [auth]) and nothing else of the state.  The
    markup interpolates [name], the description, the schedule, the spots
    left (a number) and each element of [participants]; when all of them
    print plain, the parser builds the card the markup spells out. *)
Definition activity_card (auth : bool) (name : string) (details : value) : option node :=
  let? max_participants := Js.get details "max_participants" in
  let? participants := Js.get details "participants" in
  let? len := Js.get participants "length" in
  let? emails := (if gt_zero len then participants_array participants else Some []) in
  let? description := Js.get details "description" in
  let? schedule := Js.get details "schedule" in
  Some (if plain name && prints_plain description && prints_plain schedule
           && forallb prints_plain emails
        then ActivityCard
               {| card_name := name;
                  card_description := to_string description;
                  card_schedule := to_string schedule;
                  spots_left := (max_participants, len);
                  card_participants :=
                    map (fun email => participant_item auth name (to_string email)) emails |}
        else MarkupCard name details (rendered_buttons host auth name details)).

Definition option_for (name : string) : select_option :=
  {| option_value := name; option_text := name |}.

(** One round of the [forEach]: the card and the option of an entry. *)
Definition append_activity (entry : string * value) : js unit :=
  auth <- read isAuthenticated ;;
  match activity_card auth (fst entry) (snd entry) with
  | None => throw
  | Some n =>
      modify activitiesList (fun l => l ++ [n]) ;;
      modify activitySelect (fun l => l ++ [option_for (fst entry)])
  end.

(** The delete buttons get their listener at the end; in the model every
    button of the list answers [Click_deleteBtn]. *)
Definition fetchActivities_resume (r : reply) : js unit :=
  try_catch
    (response <- awaited r ;;
     activities <- json response ;;
     write activitiesList [] ;;
     match Js.entries activities with
     | None => throw
     | Some es => forEach es append_activity
     end)
    (write activitiesList [Paragraph "Failed to load activities. Please try again later."] ;;
     console_error "Error fetching activities:").

(** *** Unregister (lines 240-294) *)

(** A missing attribute reads [null], which [encodeURIComponent] prints. *)
Definition attribute_text (attribute : option string) : string :=
  match attribute with
  | Some s => s
  | None => "null"
  end.

(** The [catch] of [handleUnregister], which spans the [await]. *)
Definition handleUnregister_catch : js unit :=
  modify messageDiv (set_textContent (JStr "Failed to unregister. Please try again.")) ;;
  modify messageDiv (set_className "error") ;;
  modify messageDiv (classList_remove "hidden") ;;
  console_error "Error unregistering:".

Definition handleUnregister (target : button) : js unit :=
  auth <- read isAuthenticated ;;
  if negb auth then
    modify messageDiv (set_textContent (JStr "Please login as a teacher to unregister students.")) ;;
    modify messageDiv (set_className "error") ;;
    modify messageDiv (classList_remove "hidden") ;;
    setTimeout HideMessage 5000
  else
    token <- read authToken ;;
    try_catch
      (activity <- encode (attribute_text (data_activity target)) ;;
       email <- encode (attribute_text (data_email target)) ;;
       fetch (DELETE_unregister activity email token) AwaitUnregister)
      handleUnregister_catch.

Definition handleUnregister_resume (r : reply) : js unit :=
  try_catch
    (response <- awaited r ;;
     result <- json response ;;
     (if fst response then
        message <- prop result "message" ;;
        modify messageDiv (set_textContent message) ;;
        modify messageDiv (set_className "success") ;;
        fetchActivities
      else
        detail <- prop result "detail" ;;
        modify messageDiv (set_textContent (or_else detail (JStr "An error occurred"))) ;;
        modify messageDiv (set_className "error")) ;;
     modify messageDiv (classList_remove "hidden") ;;
     setTimeout HideMessage 5000)
    handleUnregister_catch.

(** *** Signup (lines 296-352) *)

(** [document.getElementById("activity").value] *)
Definition select_value (options : list select_option) (selected : nat) : string :=
  match nth_error options selected with
  | Some o => option_value o
  | None => ""
  end.

(** The [catch] of the signup listener, which spans the [await]. *)
Definition signupForm_catch : js unit :=
  modify messageDiv (set_textContent (JStr "Failed to sign up. Please try again.")) ;;
  modify messageDiv (set_className "error") ;;
  modify messageDiv (classList_remove "hidden") ;;
  console_error "Error signing up:".

Definition signupForm_submit : js unit :=
  auth <- read isAuthenticated ;;
  if negb auth then
    modify messageDiv (set_textContent (JStr "Please login as a teacher to register students.")) ;;
    modify messageDiv (set_className "error") ;;
    modify messageDiv (classList_remove "hidden") ;;
    setTimeout HideMessage 5000
  else
    form <- read signupForm ;;
    options <- read activitySelect ;;
    token <- read authToken ;;
    try_catch
      (activity <- encode (select_value options (snd form)) ;;
       email <- encode (fst form) ;;
       fetch (POST_signup activity email token) AwaitSignup)
      signupForm_catch.

Definition signupForm_resume (r : reply) : js unit :=
  try_catch
    (response <- awaited r ;;
     result <- json response ;;
     (if fst response then
        message <- prop result "message" ;;
        modify messageDiv (set_textContent message) ;;
        modify messageDiv (set_className "success") ;;
        write signupForm ("", 0) ;;
        fetchActivities
      else
        detail <- prop result "detail" ;;
        modify messageDiv (set_textContent (or_else detail (JStr "An error occurred"))) ;;
        modify messageDiv (set_className "error")) ;;
     modify messageDiv (classList_remove "hidden") ;;
     setTimeout HideMessage 5000)
    signupForm_catch.

(** *** Start (lines 17-19, 354-356) *)

Definition DOMContentLoaded : js unit :=
  stored <- read localStorage ;;
  write authToken (match stored with Some item => JStr item | None => JNull end) ;;
  write isAuthenticated false ;;
  checkAuth ;;
  fetchActivities.

(** ** The event loop *)

(** Events as the listeners receive them.  Whether the page lets a user
    produce one (a disabled submit button, a delete button that is not
    displayed) is the browser's business and is not modelled: the handlers
    guard themselves.  A submitted form is the page's own: the ids the
    listeners look up when it is submitted lead to the inputs the page came
    with, as they do while no [MarkupCard] is in the list. *)
Inductive event : Type :=
| Click_loginBtn
| Click_closeModal
| Click_window (target_is_modal : bool)
| Input_loginForm (username password : string)
| Submit_loginForm
| Click_logoutBtn
| Input_signupForm (email : string) (selected : nat)
| Submit_signupForm
| Click_deleteBtn (k : nat)        (* the k-th [.delete-btn] of the document *)
| Settle (id : nat) (r : reply)    (* request [id] settles with [r] *)
| Elapse (ms : N).                 (* [ms] milliseconds pass *)

Definition resume (k : continuation) (r : reply) : js unit :=
  match k with
  | AwaitVerify => checkAuth_resume r
  | AwaitLogin => loginForm_resume r
  | AwaitLogout => logoutBtn_resume r
  | AwaitActivities => fetchActivities_resume r
  | AwaitUnregister => handleUnregister_resume r
  | AwaitSignup => signupForm_resume r
  end.

Fixpoint parked (id : nat) (l : list (nat * continuation)) : option continuation :=
  match l with
  | [] => None
  | (id', k) :: rest => if Nat.eqb id id' then Some k else parked id rest
  end.

Definition unpark (id : nat) (l : list (nat * continuation)) : list (nat * continuation) :=
  filter (fun p => negb (Nat.eqb id (fst p))) l.

Definition settle (id : nat) (r : reply) : js unit :=
  waiting <- read in_flight ;;
  match parked id waiting with
  | Some k => modify in_flight (unpark id) ;; resume k r
  | None => ret tt
  end.

Definition run_callback (cb : callback) : js unit :=
  match cb with
  | HideMessage => modify messageDiv (classList_add "hidden")
  end.

Definition is_due (t : N) (timer : N * callback) : bool := (fst timer <=? t)%N.

(** Time passes: the timers that come due run (they all do the same thing,
    so their order does not show) and leave the list. *)
Definition elapse (ms : N) : js unit :=
  now <- read clock ;;
  pending <- read timers ;;
  write clock (now + ms)%N ;;
  write timers (filter (fun timer => negb (is_due (now + ms) timer)) pending) ;;
  forEach (filter (is_due (now + ms)) pending) (fun timer => run_callback (snd timer)).

(** [document.querySelectorAll(".delete-btn")] *)
Fixpoint delete_buttons (l : list node) : list button :=
  match l with
  | [] => []
  | ActivityCard c :: rest => map delete_btn (card_participants c) ++ delete_buttons rest
  | MarkupCard _ _ buttons :: rest => buttons ++ delete_buttons rest
  | Paragraph _ :: rest => delete_buttons rest
  end.

Definition handle (e : event) : js unit :=
  match e with
  | Click_loginBtn => loginBtn_click
  | Click_closeModal => closeModal_click
  | Click_window target_is_modal => window_click target_is_modal
  | Input_loginForm username password => write loginForm (username, password)
  | Submit_loginForm => loginForm_submit
  | Click_logoutBtn => logoutBtn_click
  | Input_signupForm email selected => write signupForm (email, selected)
  | Submit_signupForm => signupForm_submit
  | Click_deleteBtn k =>
      list <- read activitiesList ;;
      match nth_error (delete_buttons list) k with
      | Some target => handleUnregister target
      | None => ret tt
      end
  | Settle id r => settle id r
  | Elapse ms => elapse ms
  end.

Definition step (s : state) (e : event) : state := exec (handle e) s.

Definition run (s : state) (trace : list event) : state := fold_left step trace s.

(** The page opens in a tab whose storage holds [persisted]. *)
Definition boot (persisted : option string) (tab : state) : state :=
  exec DOMContentLoaded (tab <| localStorage := persisted |>).

(** The message area after [textContent = text; className = kind;
    classList.remove("hidden")]. *)
Definition notice (text : value) (kind : string) : element :=
  {| textContent := text_of text; classList := [kind] |}.

(** What [updateUIForAuth(username)] leaves for a truthy [username]. *)
Definition logged_in_view (username : value) (s : state) : Prop :=
  visible (loginBtn s) = false /\
  visible (userInfo s) = true /\
  textContent (usernameDisplay s) = String.append "👤 " (to_string username) /\
  signupSubmitBtn_disabled s = false.

End Script.

(** ** Vocabulary of the properties *)

(** A register or unregister is attempted: the signup form is submitted, or
    an existing delete button is clicked.  The result is the notice the gate
    shows when it refuses. *)
Definition attempted (s : state) (e : event) : option string :=
  match e with
  | Submit_signupForm => Some "Please login as a teacher to register students."
  | Click_deleteBtn k =>
      match nth_error (delete_buttons (activitiesList s)) k with
      | Some _ => Some "Please login as a teacher to unregister students."
      | None => None
      end
  | _ => None
  end.

Definition same_roster (s s' : state) : Prop :=
  activitiesList s' = activitiesList s /\ activitySelect s' = activitySelect s.

Definition same_session (s s' : state) : Prop :=
  authToken s' = authToken s /\
  isAuthenticated s' = isAuthenticated s /\
  localStorage s' = localStorage s.

Definition no_network (s s' : state) : Prop :=
  requests s' = requests s /\ in_flight s' = in_flight s.

(** What [updateUIForAuth(null)] leaves: login button shown, user box (and
    the user name in it) hidden, notice shown, signup disabled. *)
Definition logged_out_view (s : state) : Prop :=
  visible (loginBtn s) = true /\
  visible (userInfo s) = false /\
  visible (authNotice s) = true /\
  signupSubmitBtn_disabled s = true.

(** A reply that carries a JSON value other than [null]: the handlers can
    read its properties. *)
Definition body_of (r : reply) : option value :=
  match r with
  | Response _ (Some JNull) | Response _ (Some JUndefined) => None
  | Response _ (Some result) => Some result
  | _ => None
  end.

(** A property of that value ([None] when there is no such value). *)
Definition field (r : reply) (k : string) : option value :=
  match body_of r with
  | Some result => Js.get result k
  | None => None
  end.

Definition status_ok (r : reply) : bool :=
  match r with
  | Response ok _ => ok
  | NetworkError => false
  end.

Fixpoint strings (l : list value) : option (list string) :=
  match l with
  | [] => Some []
  | JStr s :: rest =>
      match strings rest with
      | Some l' => Some (s :: l')
      | None => None
      end
  | _ => None
  end.

(** The participants of an activity of the shape the service documents: an
    object whose [participants] is an array of strings. *)
Definition roster_emails (details : value) : option (list string) :=
  match details with
  | JObj fields =>
      match Js.lookup "participants" fields with
      | JArr emails => strings emails
      | _ => None
      end
  | _ => None
  end.

(** The texts the card of an entry interpolates are plain. *)
Definition plain_texts (name : string) (details : value) (emails : list string) : bool :=
  plain name
  && prints_plain (Js.lookup_in details "description")
  && prints_plain (Js.lookup_in details "schedule")
  && forallb plain emails.

(** A roster of the documented shape whose names, descriptions, schedules
    and emails are plain. *)
Definition well_formed (roster : list (string * value)) : bool :=
  forallb (fun e => match roster_emails (snd e) with
                    | Some emails => plain_texts (fst e) (snd e) emails
                    | None => false
                    end) roster.

(** Name and participants, activity by activity: on the server's side ... *)
Definition served (roster : list (string * value)) : list (string * list string) :=
  map (fun e => (fst e, match roster_emails (snd e) with Some l => l | None => [] end)) roster.

(** ... and as the cards of the page list them (the model does not read a
    card that the host parsed). *)
Fixpoint listed (l : list node) : list (string * list string) :=
  match l with
  | [] => []
  | ActivityCard c :: rest =>
      (card_name c, map participant_email (card_participants c)) :: listed rest
  | MarkupCard _ _ _ :: rest => listed rest
  | Paragraph _ :: rest => listed rest
  end.

Definition is_settle_of (id : nat) (e : event) : bool :=
  match e with
  | Settle id' _ => Nat.eqb id id'
  | _ => false
  end.

(** Request numbers in flight are below the next one to be given out. *)
Definition fresh_ids (s : state) : bool :=
  forallb (fun p => Nat.ltb (fst p) (next_request s)) (in_flight s).

Definition roster_continuation (k : continuation) : bool :=
  match k with
  | AwaitUnregister | AwaitSignup => true
  | _ => false
  end.

(** The notice a handler puts in the message area together with a timer, and
    the delay of that timer: the gate's refusal, the outcome of a roster
    action that came with a JSON body, a login that succeeded, a logout. *)
Definition shown (s : state) (e : event) : option (value * string * N) :=
  match e with
  | Settle id r =>
      match parked id (in_flight s) with
      | Some AwaitLogout => Some (JStr "Logged out successfully.", "success", 3000%N)
      | Some AwaitLogin =>
          match body_of r with
          | Some _ =>
              if status_ok r
              then Some (JStr "Login successful! You can now register students.", "success", 3000%N)
              else None
          | None => None
          end
      | Some AwaitUnregister | Some AwaitSignup =>
          match body_of r with
          | Some result =>
              if status_ok r
              then Some (Js.lookup_in result "message", "success", 5000%N)
              else Some (or_else (Js.lookup_in result "detail") (JStr "An error occurred"),
                         "error", 5000%N)
          | None => None
          end
      | _ => None
      end
  | _ =>
      if isAuthenticated s then None
      else match attempted s e with
           | Some text => Some (JStr text, "error", 5000%N)
           | None => None
           end
  end.

(** The generic notice of a roster action that threw. *)
Definition failure_notice (k : continuation) : string :=
  match k with
  | AwaitUnregister => "Failed to unregister. Please try again."
  | _ => "Failed to sign up. Please try again."
  end.

(** Events that take the login notice away: closing the modal, a click on
    its backdrop, a login that succeeds. *)
Definition dismisses (s : state) (e : event) : bool :=
  match e with
  | Click_closeModal => true
  | Click_window target_is_modal => target_is_modal
  | Settle id r =>
      match parked id (in_flight s), body_of r with
      | Some AwaitLogin, Some _ => status_ok r
      | _, _ => false
      end
  | _ => false
  end.

(** What a step leaves alone: frames for the loops and the pieces of the
    case analyses below. *)

(** Only the list and the dropdown change (the roster loop). *)
Definition roster_frame (s s' : state) : Prop :=
  s' = s <| activitiesList := activitiesList s' |> <| activitySelect := activitySelect s' |>.

(** Only the list, the dropdown and the console change (a roster reply). *)
Definition refresh_frame (s s' : state) : Prop :=
  s' = s <| activitiesList := activitiesList s' |>
         <| activitySelect := activitySelect s' |>
         <| console := console s' |>.

(** The timers that come due only touch the message area. *)
Definition message_frame (s s' : state) : Prop :=
  s' = s <| messageDiv := messageDiv s' |>.

Definition is_elapse (e : event) : bool :=
  match e with Elapse _ => true | _ => false end.

(** The requests still in flight after an event, before any new one. *)
Definition remaining (s : state) (e : event) : list (nat * continuation) :=
  match e with
  | Settle id _ =>
      match parked id (in_flight s) with
      | Some _ => unpark id (in_flight s)
      | None => in_flight s
      end
  | _ => in_flight s
  end.

(** The reply of a login request. *)
Definition is_login_reply (s : state) (e : event) : bool :=
  match e with
  | Settle id _ =>
      match parked id (in_flight s) with
      | Some AwaitLogin => true
      | _ => false
      end
  | _ => false
  end.

Section Traces.

Variable host : engine.

(** No event of the trace takes the login notice away. *)
Fixpoint undismissed (s : state) (trace : list event) : bool :=
  match trace with
  | [] => true
  | e :: rest =>
      negb (dismisses s e) && undismissed (step host s e) rest
  end.

(** The page opened with [token] stored, and [trace] happened since. *)
Definition opened_with (tab : state) (token : string) (trace : list event) : state :=
  run host (boot host (Some token) tab) trace.

(** The logout button was clicked in [s], and [trace] happened since. *)
Definition logging_out (s : state) (trace : list event) : state :=
  run host (step host s Click_logoutBtn) trace.

End Traces.

(** ** Vocabulary of the further properties *)

(** Every delete button of the list is displayed ([auth] true) or not. *)
Definition all_display (auth : bool) (l : list node) : bool :=
  forallb (fun b => style_display b =? show_display auth) (delete_buttons l).

Definition buttons_follow_auth (s : state) : bool :=
  all_display (isAuthenticated s) (activitiesList s).

(** The reply of a verify, login or logout request. *)
Definition is_session_reply (s : state) (e : event) : bool :=
  match e with
  | Settle id _ =>
      match parked id (in_flight s) with
      | Some AwaitVerify | Some AwaitLogin | Some AwaitLogout => true
      | _ => false
      end
  | _ => false
  end.

(** The reply of a roster request. *)
Definition is_roster_reply (s : state) (e : event) : bool :=
  match e with
  | Settle id _ =>
      match parked id (in_flight s) with
      | Some AwaitActivities => true
      | _ => false
      end
  | _ => false
  end.

(** The server vouches for the session: a verify reply whose body has a
    truthy [authenticated], or a login reply with a success status and a
    body. *)
Definition accepted (s : state) (e : event) : bool :=
  match e with
  | Settle id r =>
      match parked id (in_flight s) with
      | Some AwaitVerify =>
          match field r "authenticated" with
          | Some a => truthy a
          | None => false
          end
      | Some AwaitLogin =>
          match body_of r with
          | Some _ => status_ok r
          | None => false
          end
      | _ => false
      end
  | _ => false
  end.

(** The reply after which the roster is fetched again. *)
Definition refreshes (s : state) (id : nat) (r : reply) : bool :=
  match parked id (in_flight s), body_of r with
  | Some k, Some _ => roster_continuation k && status_ok r
  | _, _ => false
  end.

(** The token a request carries in its Authorization header. *)
Definition bearer_of (r : request) : option value :=
  match r with
  | GET_auth_verify bearer
  | POST_auth_logout bearer
  | DELETE_unregister _ _ bearer
  | POST_signup _ _ bearer => Some bearer
  | POST_auth_login _ _ | GET_activities => None
  end.

(** Activity and email of each delete button, in document order ... *)
Definition targets (l : list node) : list (option string * option string) :=
  map (fun b => (data_activity b, data_email b)) (delete_buttons l).



(** Where a handler writes its error: the modal for a login, the message
    area for the rest. *)
Definition error_area (k : continuation) (s : state) : element :=
  match k with
  | AwaitLogin => loginMessage s
  | _ => messageDiv s
  end.

Definition reports_errors (k : continuation) : bool :=
  match k with
  | AwaitLogin | AwaitUnregister | AwaitSignup => true
  | _ => false
  end.

Definition load_failure : node :=
  Paragraph "Failed to load activities. Please try again later.".

(** A signup reply with a success status and a body. *)
Definition signup_succeeds (s : state) (e : event) : bool :=
  match e with
  | Settle id r =>
      match parked id (in_flight s), body_of r with
      | Some AwaitSignup, Some _ => status_ok r
      | _, _ => false
      end
  | _ => false
  end.

(** Every card of the list is of the script's own markup: none was left to
    the host's parser. *)
Definition own_markup (l : list node) : bool :=
  forallb (fun n => match n with MarkupCard _ _ _ => false | _ => true end) l.

(** The two texts a signup or an unregister hands to [encodeURIComponent]:
    the activity and the email. *)
Definition components (s : state) (e : event) : option (string * string) :=
  match e with
  | Submit_signupForm =>
      Some (select_value (activitySelect s) (snd (signupForm s)), fst (signupForm s))
  | Click_deleteBtn k =>
      match nth_error (delete_buttons (activitiesList s)) k with
      | Some target =>
          Some (attribute_text (data_activity target), attribute_text (data_email target))
      | None => None
      end
  | _ => None
  end.

(** The request of a signup or an unregister. *)
Definition action_request (e : event) (activity email : string) (bearer : value) : request :=
  match e with
  | Click_deleteBtn _ => DELETE_unregister activity email bearer
  | _ => POST_signup activity email bearer
  end.

(** The notice of a signup or an unregister that threw. *)
Definition action_failure (e : event) : string :=
  match e with
  | Click_deleteBtn _ => failure_notice AwaitUnregister
  | _ => failure_notice AwaitSignup
  end.

(** The body of a roster reply, entry by entry (nothing when there is no
    body to read). *)
Definition entries_of (r : reply) : list (string * value) :=
  match r with
  | Response _ (Some activities) =>
      match Js.entries activities with
      | Some es => es
      | None => []
      end
  | _ => []
  end.

(** The roster reply gets as far as the loop over its entries. *)
Definition reaches_loop (r : reply) : bool :=
  match r with
  | Response _ (Some activities) =>
      match Js.entries activities with
      | Some _ => true
      | None => false
      end
  | _ => false
  end.

(** The name under which an entry gets its card. *)
Definition titled (e : string * value) : option string := Some (fst e).

(** What a card of the list was written for. *)
Definition node_name (n : node) : option string :=
  match n with
  | ActivityCard c => Some (card_name c)
  | MarkupCard name _ _ => Some name
  | Paragraph _ => None
  end.

Section Rendering.

Variable host : engine.

(** The three places where the loop body can throw: [details] is [null] or
    missing where [max_participants] is read (line 192), [participants] is
    [null] or missing where its [length] is read (line 192), and [map] is
    called on a [participants] that is not an array (line 201) because its
    [length] is positive (line 196). *)
Definition unreadable (details : value) : bool :=
  match Js.get details "participants" with
  | None => true
  | Some participants =>
      match Js.get participants "length" with
      | None => true
      | Some len => gt_zero host len && negb (is_array participants)
      end
  end.

(** The same, spelled out: the entry's value is [null] or missing; its
    [participants] is [null] or missing; or its [participants] has a
    positive [length] and is not an array. *)
Definition cannot_render (details : value) : Prop :=
  details = JUndefined \/ details = JNull \/
  Js.lookup_in details "participants" = JUndefined \/
  Js.lookup_in details "participants" = JNull \/
  (gt_zero host (Js.lookup_in (Js.lookup_in details "participants") "length") = true /\
   is_array (Js.lookup_in details "participants") = false).

(** The entries before the first one on which the loop throws. *)
Fixpoint until_unreadable (es : list (string * value)) : list (string * value) :=
  match es with
  | [] => []
  | e :: rest => if unreadable (snd e) then [] else e :: until_unreadable rest
  end.

(** The roster reply is rendered to the end. *)
Definition loads (r : reply) : bool :=
  reaches_loop r && negb (existsb (fun e => unreadable (snd e)) (entries_of r)).

(** No event of the trace is one of [p]. *)
Fixpoint never (p : state -> event -> bool) (s : state) (trace : list event) : bool :=
  match trace with
  | [] => true
  | e :: rest => negb (p s e) && never p (step host s e) rest
  end.

End Rendering.

(** An entry all of whose strings are plain. *)
Definition plain_entry (entry : string * value) : bool :=
  plain (fst entry) && markup_free (snd entry).

(** A roster reply one of whose strings is not plain. *)
Definition serves_markup (s : state) (e : event) : bool :=
  match e with
  | Settle _ r => is_roster_reply s e && negb (forallb plain_entry (entries_of r))
  | _ => false
  end.

(** What the stored item has to do with the token variable: it is the
    variable printed, and the variable is [null] when there is no item. *)
Definition stored_as (print : value -> string) (token : value) (item : option string) : Prop :=
  match item with
  | Some text => print token = text
  | None => token = JNull
  end.

(** ** A sample page *)

(** The document as a browser would hold it before the script runs: the
    placeholder paragraph and option, every transient box hidden. *)
Definition sample_tab : state := {|
  authToken := JUndefined;
  isAuthenticated := false;
  localStorage := None;
  activitiesList := [Paragraph "Loading activities..."];
  activitySelect := [{| option_value := ""; option_text := "-- Select an activity --" |}];
  signupForm := ("", 0);
  messageDiv := {| textContent := ""; classList := ["hidden"] |};
  loginBtn := {| textContent := "Login"; classList := [] |};
  loginModal := {| textContent := ""; classList := ["modal"; "hidden"] |};
  loginForm := ("", "");
  loginMessage := {| textContent := ""; classList := ["hidden"] |};
  userInfo := {| textContent := ""; classList := ["hidden"] |};
  usernameDisplay := {| textContent := ""; classList := [] |};
  authNotice := {| textContent := "Login to manage registrations."; classList := [] |};
  signupSubmitBtn_disabled := true;
  clock := 0;
  timers := [];
  next_request := 0;
  in_flight := [];
  requests := [];
  console := []
|}.

Definition chess_details (emails : list string) : value :=
  JObj [("description", JStr "Learn strategies and compete in chess tournaments");
        ("schedule", JStr "Fridays, 3:30 PM - 5:00 PM");
        ("max_participants", JNum 10);
        ("participants", JArr (map JStr emails))].

Definition chess_roster (emails : list string) : list (string * value) :=
  [("Chess Club", chess_details emails)].

Definition served_roster (emails : list string) : reply :=
  Response true (Some (JObj (chess_roster emails))).

Definition says (key text : string) : value := JObj [(key, JStr text)].

(** The examples never reach what the model leaves to the host. *)
Definition unused_host : engine := {|
  to_number_positive := fun _ => false;
  number_to_string := fun _ => "";
  rendered_buttons := fun _ _ _ => []
|}.

(** A visitor opens the page with nothing stored; the roster arrives
    (request 0). *)
Definition visitor_page : state :=
  run unused_host (boot unused_host None sample_tab) [Settle 0 (served_roster ["a@x.com"])].

(** The visitor opens the modal and submits the login form (request 1). *)
Definition login_in_flight : state :=
  run unused_host visitor_page
    [Click_loginBtn; Input_loginForm "teacher" "secret"; Submit_loginForm].

(** The login is accepted ... *)
Definition logged_in : state :=
  step unused_host login_in_flight
    (Settle 1 (Response true (Some (JObj [("token", JStr "3f9c"); ("username", JStr "teacher")])))).

(** ... and three seconds later its notice is gone. *)
Definition teacher_page : state :=
  step unused_host logged_in (Elapse 3000).

(** The teacher submits b@x.com for Chess Club (request 2). *)
Definition signup_in_flight : state :=
  run unused_host teacher_page [Input_signupForm "b@x.com" 1; Submit_signupForm].

(** The signup is accepted and the roster is fetched again (request 3). *)
Definition after_signup : state :=
  run unused_host signup_in_flight
    [Settle 2 (Response true (Some (says "message" "Signed up b@x.com for Chess Club")));
     Settle 3 (served_roster ["a@x.com"; "b@x.com"])].

(** The same signup, started one second after the login was accepted and
    answered one second later. *)
Definition signup_soon_after_login : state :=
  run unused_host logged_in
    [Elapse 1000; Input_signupForm "b@x.com" 1; Submit_signupForm; Elapse 1000].

Definition hidden_by_login_timer : state :=
  run unused_host signup_soon_after_login
    [Settle 2 (Response true (Some (says "message" "Signed up b@x.com for Chess Club")));
     Elapse 1000].

(** The teacher clicks a delete button and the request is rejected. *)
Definition failed_unregister : state :=
  run unused_host teacher_page [Click_deleteBtn 0; Settle 2 NetworkError].

(** The teacher logs out (request 2). *)
Definition logout_in_flight : state :=
  step unused_host teacher_page Click_logoutBtn.

(** The page opens with a stored token (request 0 verifies it, request 1
    fetches the roster). *)
Definition returning_page : state := boot unused_host (Some "3f9c") sample_tab.

(** The verification request is rejected. *)
Definition failed_verification : state :=
  step unused_host returning_page (Settle 0 NetworkError).

(** A login reply that is accepted. *)
Definition accepted_login : reply :=
  Response true (Some (JObj [("token", JStr "3f9c"); ("username", JStr "teacher")])).


(** The signup is accepted (its refresh is request 3); the teacher then
    removes a@x.com, which is accepted too (request 4, refresh 5).  Both
    refreshes are still in flight. *)
Definition two_refreshes : state :=
  run unused_host signup_in_flight
    [Settle 2 (Response true (Some (says "message" "Signed up b@x.com for Chess Club")));
     Click_deleteBtn 0;
     Settle 4 (Response true (Some (says "message" "Unregistered a@x.com from Chess Club")))].

(** A roster whose second entry has no details. *)
Definition torn_roster : value :=
  JObj (chess_roster ["a@x.com"] ++ [("Art Club", JNull)]).

(** A surrogate without its other half (U+D800), as the model holds it. *)
Definition stray_surrogate : string :=
  String (ascii_of_nat 237) (String (ascii_of_nat 160) (String (ascii_of_nat 128) "")).

(** The teacher has typed it into the email box. *)
Definition surrogate_typed : state :=
  step unused_host teacher_page (Input_signupForm stray_surrogate 1).

End App.

Import App.

(** ** Properties *)

Section Properties.

Variable host : engine.

#[local] Abbreviation step := (App.step host).
#[local] Abbreviation run := (App.run host).
#[local] Abbreviation boot := (App.boot host).
#[local] Abbreviation to_string := (App.to_string host).
#[local] Abbreviation notice := (App.notice host).
#[local] Abbreviation logged_in_view := (App.logged_in_view host).
#[local] Abbreviation append_activity := (App.append_activity host).
#[local] Abbreviation activity_card := (App.activity_card host).
#[local] Abbreviation undismissed := (App.undismissed host).
#[local] Abbreviation opened_with := (App.opened_with host).
#[local] Abbreviation logging_out := (App.logging_out host).

(** *** Elements *)

Lemma has_class_add c el : has_class c (classList_add c el) = true.
Proof.
  unfold classList_add, has_class.
  destruct (existsb (String.eqb c) (classList el)) eqn:E; [exact E|].
  destruct el as [t l]; cbn. rewrite existsb_app. cbn.
  rewrite String.eqb_refl. now rewrite orb_true_r.
Qed.

Lemma has_class_add_kept c c' el :
  has_class c el = true -> has_class c (classList_add c' el) = true.
Proof.
  unfold classList_add, has_class. intros H.
  destruct (existsb (String.eqb c') (classList el)); [exact H|].
  destruct el as [t l]; cbn in *. rewrite existsb_app, H. reflexivity.
Qed.

Lemma has_class_remove c el : has_class c (classList_remove c el) = false.
Proof.
  unfold classList_remove, has_class. destruct el as [t l]; cbn. unfold constant.
  induction l as [|c' l IH]; cbn; [reflexivity|].
  destruct (c =? c') eqn:E; cbn; [exact IH|]. now rewrite E.
Qed.

Lemma visible_add_hidden el : visible (classList_add "hidden" el) = false.
Proof. unfold visible. now rewrite has_class_add. Qed.

Lemma visible_remove_hidden el : visible (classList_remove "hidden" el) = true.
Proof. unfold visible. now rewrite has_class_remove. Qed.

#[local] Arguments visible : simpl never.
#[local] Arguments classList_add : simpl never.
#[local] Arguments classList_remove : simpl never.
#[local] Arguments set_className : simpl never.
#[local] Arguments set_textContent : simpl never.
#[local] Arguments App.to_string : simpl never.
#[local] Arguments text_of : simpl never.
#[local] Arguments encodeURIComponent : simpl never.
#[local] Arguments plain : simpl never.
#[local] Arguments prints_plain : simpl never.

(** Symbolic execution: open the state record, unfold the handlers and the
    statements, compute. *)
Ltac open_state s := destruct s; cbn in *; subst.

Ltac js :=
  repeat progress
    (unfold App.step, handle, settle, resume, elapse,
       DOMContentLoaded, checkAuth, checkAuth_resume, updateUIForAuth,
       updateDeleteButtonsVisibility,
       loginBtn_click, closeModal_click, window_click, loginForm_submit, loginForm_resume,
       logoutBtn_click, logoutBtn_resume, fetchActivities,
       handleUnregister, handleUnregister_resume, handleUnregister_catch,
       signupForm_submit, signupForm_resume, signupForm_catch, setItem,
       exec, bind, ret, throw, try_catch, read, modify, write, prop, encode, awaited, json,
       console_error, setTimeout, fetch, constant in *;
     cbn in *).

(** *** The roster loop *)

Lemma forEach_append_frame es s :
  roster_frame s (snd (forEach es append_activity s)).
Proof.
  revert s. induction es as [|e es IH]; intros s.
  - destruct s; reflexivity.
  - cbn [forEach]. unfold bind at 1.
    unfold App.append_activity at 1. unfold bind at 1, read at 1.
    destruct (activity_card _ _ _) as [n|]; [|destruct s; reflexivity].
    js. specialize (IH (s <| activitiesList ::= fun l => l ++ [n] |>
                          <| activitySelect ::= fun l => l ++ [option_for (fst e)] |>)).
    destruct s; cbn in *. unfold constant in *.
    unfold roster_frame in *. rewrite IH at 1. reflexivity.
Qed.

Lemma fetchActivities_resume_frame r s :
  refresh_frame s (snd (fetchActivities_resume host r s)).
Proof.
  unfold fetchActivities_resume, refresh_frame.
  destruct r as [|ok [activities|]]; js; try (destruct s; reflexivity).
  destruct (Js.entries activities) as [es|]; js; try (destruct s; reflexivity).
  pose proof (forEach_append_frame es (s <| activitiesList := [] |>)) as F.
  destruct (forEach es _ _) as [[[]|] s']; cbn in *;
    rewrite F; destruct s; reflexivity.
Qed.

Lemma callbacks_frame l s :
  message_frame s (snd (forEach l (fun timer : N * callback => run_callback (snd timer)) s)).
Proof.
  revert s. induction l as [|[due []] l IH]; intros s.
  - destruct s; reflexivity.
  - cbn [forEach]. js.
    specialize (IH (s <| messageDiv ::= classList_add "hidden" |>)).
    unfold message_frame in *. rewrite IH at 1. destruct s; reflexivity.
Qed.

Lemma callbacks_keep_hidden l s :
  has_class "hidden" (messageDiv s) = true ->
  has_class "hidden"
    (messageDiv (snd (forEach l (fun timer : N * callback => run_callback (snd timer)) s))) = true.
Proof.
  revert s. induction l as [|[due []] l IH]; intros s H; [exact H|].
  cbn [forEach]. js. apply IH. destruct s; cbn in *.
  now apply has_class_add_kept.
Qed.

Lemma callbacks_hide l s :
  l <> [] ->
  visible (messageDiv (snd (forEach l (fun timer : N * callback => run_callback (snd timer)) s))) = false.
Proof.
  destruct l as [|[due []] l]; [congruence|]. intros _.
  cbn [forEach]. js. unfold visible. rewrite callbacks_keep_hidden; [reflexivity|].
  destruct s; cbn. apply has_class_add.
Qed.

(** The two loops are replaced by their frames ... *)
Ltac frame_refresh :=
  match goal with
  | |- context [fetchActivities_resume ?f ?r ?S] =>
      let s' := fresh "s'" in
      let F := fresh "F" in
      pose proof (fetchActivities_resume_frame r S) as F; unfold refresh_frame in F;
      set (s' := snd (fetchActivities_resume f r S)) in *; clearbody s';
      rewrite F; clear F; cbn
  | |- context [forEach ?l (fun timer : N * callback => run_callback (snd timer)) ?S] =>
      let s' := fresh "s'" in
      let F := fresh "F" in
      pose proof (callbacks_frame l S) as F; unfold message_frame in F;
      set (s' := snd (forEach l (fun timer : N * callback => run_callback (snd timer)) S)) in *;
      clearbody s'; rewrite F; clear F; cbn
  end.

(** ... and every other branching is followed both ways. *)
Ltac split_case :=
  match goal with
  | |- _ => frame_refresh
  | |- context [match ?x with _ => _ end] => is_var x; destruct x
  | |- context [match parked ?i ?l with _ => _ end] => destruct (parked i l) eqn:?
  | |- context [match Js.get ?v ?k with _ => _ end] => destruct (Js.get v k) eqn:?
  | |- context [if truthy ?v then _ else _] => destruct (truthy v) eqn:?
  | |- context [match nth_error ?l ?k with _ => _ end] => destruct (nth_error l k) eqn:?
  | |- context [if negb ?b then _ else _] => destruct b eqn:?
  | |- context [match encodeURIComponent ?t with _ => _ end] =>
      destruct (encodeURIComponent t) eqn:?
  end.

Ltac cases := repeat (js; split_case); js.

(** *** What no handler does *)

(** No handler cancels a timer: outside [Elapse] the list only grows. *)
Lemma timers_grow s e :
  is_elapse e = false ->
  exists added, timers (step s e) = timers s ++ added.
Proof.
  intros He. destruct e; try discriminate; open_state s; cases;
    first [ now (exists []; rewrite app_nil_r) | now (eexists; reflexivity) ].
Qed.

Lemma elapse_fires s due cb ms :
  In (due, cb) (timers s) ->
  (due <= clock s + ms)%N ->
  visible (messageDiv (step s (Elapse ms))) = false.
Proof.
  intros Hin Hdue. open_state s. js. apply callbacks_hide.
  intros Hnil.
  assert (Hf : In (due, cb) (filter (is_due (clock0 + ms)) timers0)).
  { apply filter_In. split; [exact Hin|]. unfold is_due. cbn. now apply N.leb_le. }
  rewrite Hnil in Hf. exact Hf.
Qed.

(** *** Requests in flight *)

Lemma parked_app id l l' k :
  parked id l = Some k -> parked id (l ++ l') = Some k.
Proof.
  induction l as [|[id' k'] l IH]; cbn; [discriminate|].
  destruct (Nat.eqb id id'); auto.
Qed.

Lemma parked_app_none id l l' :
  parked id l = None -> parked id (l ++ l') = parked id l'.
Proof.
  induction l as [|[id' k'] l IH]; cbn; [reflexivity|].
  destruct (Nat.eqb id id'); [discriminate|auto].
Qed.

Lemma parked_unpark id id' l :
  Nat.eqb id' id = false -> parked id (unpark id' l) = parked id l.
Proof.
  intros Hne. induction l as [|[i k] l IH]; cbn; [reflexivity|].
  destruct (Nat.eqb id' i) eqn:E; cbn.
  - apply Nat.eqb_eq in E. subst i.
    rewrite Nat.eqb_sym in Hne. now rewrite Hne.
  - destruct (Nat.eqb id i); [reflexivity|exact IH].
Qed.

Lemma parked_fresh id next l :
  forallb (fun p => Nat.ltb (fst p) next) l = true -> next <= id -> parked id l = None.
Proof.
  intros Hl Hid. induction l as [|[i k] l IH]; cbn in *; [reflexivity|].
  apply andb_true_iff in Hl as [Hi Hl]. apply Nat.ltb_lt in Hi.
  destruct (Nat.eqb_spec id i); [lia|auto].
Qed.

(** A handler sends at most one request, under the next number. *)
Lemma step_in_flight s e :
  (in_flight (step s e) = remaining s e /\ next_request (step s e) = next_request s) \/
  (exists k, in_flight (step s e) = remaining s e ++ [(next_request s, k)] /\
             next_request (step s e) = S (next_request s)).
Proof.
  unfold remaining. destruct e; open_state s; cases;
    first [ now (left; split; reflexivity)
          | now (right; eexists; split; reflexivity) ].
Qed.

(** A parked handler stays parked until its own request settles. *)
Lemma parked_step s e id k :
  is_settle_of id e = false ->
  parked id (in_flight s) = Some k ->
  parked id (in_flight (step s e)) = Some k.
Proof.
  intros He Hk.
  assert (Hr : parked id (remaining s e) = Some k).
  { unfold remaining. destruct e; try exact Hk. cbn in He.
    destruct (parked id0 (in_flight s)); [|exact Hk].
    rewrite parked_unpark; [exact Hk|]. now rewrite Nat.eqb_sym. }
  destruct (step_in_flight s e) as [[-> _]|[k' [-> _]]]; [exact Hr|].
  now apply parked_app.
Qed.

Lemma parked_run s trace id k :
  forallb (fun e => negb (is_settle_of id e)) trace = true ->
  parked id (in_flight s) = Some k ->
  parked id (in_flight (run s trace)) = Some k.
Proof.
  revert s. induction trace as [|e trace IH]; intros s Ht Hk; [exact Hk|].
  cbn in Ht. apply andb_true_iff in Ht as [He Ht]. apply negb_true_iff in He.
  cbn. apply IH; [exact Ht|]. now apply parked_step.
Qed.

Lemma forallb_filter_kept {A} (p q : A -> bool) l :
  forallb p l = true -> forallb p (filter q l) = true.
Proof.
  induction l as [|a l IH]; cbn; [reflexivity|].
  intros H. apply andb_true_iff in H as [Ha Hl].
  destruct (q a); cbn; [rewrite Ha|]; auto.
Qed.

Lemma forallb_weaken {A} (p q : A -> bool) l :
  (forall a, p a = true -> q a = true) -> forallb p l = true -> forallb q l = true.
Proof.
  intros Hpq. induction l as [|a l IH]; cbn; [reflexivity|].
  intros H. apply andb_true_iff in H as [Ha Hl]. rewrite (Hpq a Ha). auto.
Qed.

Lemma ltb_weaken a n m : n <= m -> Nat.ltb a n = true -> Nat.ltb a m = true.
Proof. intros Hnm H. apply Nat.ltb_lt in H. apply Nat.ltb_lt. lia. Qed.

Lemma fresh_weaken n m (l : list (nat * continuation)) :
  n <= m ->
  forallb (fun p => Nat.ltb (fst p) n) l = true ->
  forallb (fun p => Nat.ltb (fst p) m) l = true.
Proof.
  intros Hnm. apply forallb_weaken. intros a. now apply ltb_weaken.
Qed.

(** Request numbers stay fresh along every run. *)
Lemma fresh_ids_step s e : fresh_ids s = true -> fresh_ids (step s e) = true.
Proof.
  unfold fresh_ids. intros H.
  assert (Hr : forallb (fun p => Nat.ltb (fst p) (next_request s)) (remaining s e) = true).
  { unfold remaining. destruct e; try exact H.
    destruct (parked id (in_flight s)); [|exact H].
    now apply forallb_filter_kept. }
  destruct (step_in_flight s e) as [[-> ->]|[k [-> ->]]]; [exact Hr|].
  rewrite forallb_app. apply andb_true_iff. split.
  - revert Hr. apply fresh_weaken. lia.
  - cbn [forallb fst]. rewrite andb_true_r. apply Nat.ltb_lt. lia.
Qed.

Lemma fresh_ids_run s trace : fresh_ids s = true -> fresh_ids (run s trace) = true.
Proof.
  revert s. induction trace as [|e trace IH]; intros s H; [exact H|].
  cbn. apply IH. now apply fresh_ids_step.
Qed.

Lemma fresh_ids_spec s :
  fresh_ids s = true <-> (forall i k, In (i, k) (in_flight s) -> i < next_request s).
Proof.
  unfold fresh_ids. rewrite forallb_forall. split.
  - intros H i k Hin. apply Nat.ltb_lt. exact (H (i, k) Hin).
  - intros H [i k] Hin. apply Nat.ltb_lt. exact (H i k Hin).
Qed.

Lemma fresh_ids_boot persisted tab :
  fresh_ids tab = true -> fresh_ids (boot persisted tab) = true.
Proof.
  rewrite !fresh_ids_spec. intros H. unfold boot.
  open_state tab. destruct persisted as [token|]; cases;
    intros i k Hin;
    repeat (apply in_app_or in Hin; destruct Hin as [Hin|Hin]);
    try (apply H in Hin; lia);
    cbn in Hin; destruct Hin as [Hin|[]]; injection Hin as <- _; lia.
Qed.

(** The login and the logout handler park themselves under the next request
    number. *)
Lemma handlers_park s :
  fresh_ids s = true ->
  parked (next_request s) (in_flight (step s Submit_loginForm)) = Some AwaitLogin /\
  parked (next_request s) (in_flight (step s Click_logoutBtn)) = Some AwaitLogout.
Proof.
  intros Hfresh.
  assert (Hnew : parked (next_request s) (in_flight s) = None).
  { apply (parked_fresh _ (next_request s)); [exact Hfresh|lia]. }
  open_state s. js.
  split; rewrite parked_app_none by exact Hnew; cbn; now rewrite Nat.eqb_refl.
Qed.

(** The page that opens with a stored token first asks to have it verified. *)
Lemma boot_parks_verify tab token :
  fresh_ids tab = true ->
  token <> "" ->
  parked (next_request tab) (in_flight (boot (Some token) tab)) = Some AwaitVerify /\
  localStorage (boot (Some token) tab) = Some token /\
  authToken (boot (Some token) tab) = JStr token.
Proof.
  intros Hfresh Htoken.
  assert (Hnew : parked (next_request tab) (in_flight tab) = None).
  { apply (parked_fresh _ (next_request tab)); [exact Hfresh|lia]. }
  apply String.eqb_neq in Htoken.
  unfold boot. open_state tab. js. rewrite Htoken. js. repeat split.
  apply parked_app. rewrite parked_app_none by exact Hnew. cbn. now rewrite Nat.eqb_refl.
Qed.

(** *** The login notice *)

(** Nothing but the modal's own handlers touches the login notice; a login
    that fails shows it again. *)
Lemma loginMessage_step s e :
  dismisses s e = false ->
  (is_login_reply s e = false -> loginMessage (step s e) = loginMessage s) /\
  (is_login_reply s e = true ->
   visible (loginMessage (step s e)) = true /\
   classList (loginMessage (step s e)) = ["error"]).
Proof.
  unfold dismisses, is_login_reply, body_of, status_ok.
  destruct e; open_state s; cases;
    intros; (split; [intros; try discriminate; try reflexivity
                    | intros; try discriminate; try (split; reflexivity)]).
Qed.

(** *** Rendering a roster of the documented shape *)

Lemma strings_spec items emails : strings items = Some emails -> items = map JStr emails.
Proof.
  revert emails. induction items as [|item items IH]; intros emails; cbn.
  - now intros [= <-].
  - destruct item; try discriminate.
    destruct (strings items) as [l|]; [|discriminate].
    intros [= <-]. cbn. now rewrite (IH l eq_refl).
Qed.

Lemma prints_plain_strings emails : forallb prints_plain (map JStr emails) = forallb plain emails.
Proof. induction emails as [|email emails IH]; cbn; [reflexivity|now rewrite IH]. Qed.

Lemma participant_items_strings auth name emails :
  map (fun email => participant_item auth name (to_string email)) (map JStr emails) =
  map (participant_item auth name) emails.
Proof. rewrite map_map. reflexivity. Qed.

(** The card of a documented, plain entry, as the markup spells it out. *)
Lemma activity_card_well_formed auth name details emails :
  roster_emails details = Some emails ->
  plain_texts name details emails = true ->
  exists c,
    activity_card auth name details = Some (ActivityCard c) /\
    card_name c = name /\
    card_participants c = map (participant_item auth name) emails.
Proof.
  destruct details as [| | | | | |fields]; try discriminate. cbn.
  unfold App.activity_card, plain_texts, Js.lookup_in. cbn.
  destruct (Js.lookup "participants" fields) as [| | | | |items|]; try discriminate.
  intros Hstrings Hplain. apply strings_spec in Hstrings. subst items.
  rewrite <- prints_plain_strings in Hplain. cbn.
  destruct emails as [|email emails].
  - cbn in *. rewrite andb_true_r in *. rewrite Hplain. eexists. repeat split.
  - cbn [map List.length]. cbn [gt_zero Z.of_nat Z.ltb Z.compare participants_array].
    cbn [map] in Hplain. rewrite Hplain. eexists. split; [reflexivity|]. split; [reflexivity|].
    cbn [card_participants]. apply (participant_items_strings auth name (email :: emails)).
Qed.

Lemma listed_card c :
  listed [ActivityCard c] = [(card_name c, map participant_email (card_participants c))].
Proof. reflexivity. Qed.

Lemma participant_emails auth name emails :
  map participant_email (map (participant_item auth name) emails) = emails.
Proof. rewrite map_map. cbn. apply map_id. Qed.

Lemma forEach_append_well_formed roster s :
  well_formed roster = true ->
  exists s' cards,
    forEach roster append_activity s = (Returned tt, s') /\
    activitiesList s' = activitiesList s ++ map ActivityCard cards /\
    listed (map ActivityCard cards) = served roster /\
    activitySelect s' = activitySelect s ++ map option_for (map fst roster).
Proof.
  revert s. induction roster as [|[name details] roster IH]; intros s Hwf.
  - exists s, []. cbn. now rewrite !app_nil_r.
  - cbn in Hwf. apply andb_true_iff in Hwf as [Hd Hwf].
    destruct (roster_emails details) as [emails|] eqn:He; [|discriminate].
    destruct (activity_card_well_formed (isAuthenticated s) name details emails He Hd)
      as (c & Hc & Hname & Hlis).
    cbn [forEach]. unfold bind at 1. unfold App.append_activity at 1.
    unfold bind at 1, read at 1. cbn [fst snd]. rewrite Hc.
    js.
    destruct (IH (s <| activitiesList ::= fun l => l ++ [ActivityCard c] |>
                    <| activitySelect ::= fun l => l ++ [option_for name] |>) Hwf)
      as (s' & cards & Hrun & Hlist & Hcards & Hsel).
    exists s', (c :: cards). destruct s; cbn in *. unfold constant in *.
    split; [exact Hrun|]. split; [|split].
    + rewrite Hlist, <- app_assoc. reflexivity.
    + rewrite Hcards, He, Hname, Hlis, participant_emails. reflexivity.
    + rewrite Hsel, <- app_assoc. reflexivity.
Qed.

(** A roster that arrives replaces the list, card for activity, and extends
    the dropdown. *)
Lemma refresh_well_formed s id ok roster :
  parked id (in_flight s) = Some AwaitActivities ->
  well_formed roster = true ->
  (exists cards,
     activitiesList (step s (Settle id (Response ok (Some (JObj roster))))) =
       map ActivityCard cards) /\
  listed (activitiesList (step s (Settle id (Response ok (Some (JObj roster)))))) = served roster /\
  activitySelect (step s (Settle id (Response ok (Some (JObj roster))))) =
    activitySelect s ++ map option_for (map fst roster).
Proof.
  intros Hk Hwf. open_state s. js. rewrite Hk. js.
  unfold fetchActivities_resume. js.
  match goal with
  | |- context [forEach roster _ ?S] =>
      destruct (forEach_append_well_formed roster S Hwf) as (s' & cards & -> & Hlist & Hcards & Hsel)
  end.
  cbn in *. rewrite Hlist. repeat split; [now exists cards|exact Hcards|exact Hsel].
Qed.

(** ** The claims *)

Ltac views :=
  unfold logged_out_view, logged_in_view, same_session, same_roster, no_network; cbn;
  rewrite ?visible_add_hidden, ?visible_remove_hidden.

(** C1. While [isAuthenticated] is false, a submitted signup form or a
    clicked delete button sends no request, leaves the list, the dropdown,
    the token variable and the stored token as they were, and puts the
    login-required notice in the message area with a 5000 ms timer. *)
Theorem gate_denies_unverified (s : state) (e : event) (text : string) :
  isAuthenticated s = false ->
  attempted s e = Some text ->
  no_network s (step s e) /\
  same_roster s (step s e) /\
  same_session s (step s e) /\
  messageDiv (step s e) = notice (JStr text) "error" /\
  visible (messageDiv (step s e)) = true /\
  timers (step s e) = timers s ++ [((clock s + 5000)%N, HideMessage)].
Proof.
  intros Hgate Hact. unfold no_network, same_roster, same_session.
  destruct e; try discriminate; open_state s.
  - injection Hact as <-. js. repeat split.
  - js. destruct (nth_error _ k); [|discriminate].
    injection Hact as <-. js. repeat split.
Qed.

Lemma verify_settles (s : state) (id : nat) (r : reply) :
  parked id (in_flight s) = Some AwaitVerify ->
  (forall a, field r "authenticated" = Some a -> truthy a = false ->
     localStorage (step s (Settle id r)) = None /\
     authToken (step s (Settle id r)) = JNull /\
     isAuthenticated (step s (Settle id r)) = false /\
     logged_out_view (step s (Settle id r))) /\
  (field r "authenticated" = None ->
     isAuthenticated (step s (Settle id r)) = false /\
     logged_out_view (step s (Settle id r)) /\
     localStorage (step s (Settle id r)) = localStorage s /\
     authToken (step s (Settle id r)) = authToken s).
Proof.
  intros Hk. unfold field, body_of. open_state s. js. rewrite Hk.
  split; [intros a|]; cases; intros; try discriminate;
    repeat match goal with H : Some _ = Some _ |- _ => injection H as -> end;
    try congruence; views; repeat split.
Qed.

(** C2, as amended.  The page opens with a token stored and asks to have it
    verified; other events may come first.  When the answer is a JSON body
    whose [authenticated] is false or missing, the stored token is removed
    and the session is reset: token null, user box hidden, [isAuthenticated]
    false.  When the call fails (the request is rejected, the body does not
    parse, or it is [null]) the session is left unverified and the
    logged-out page is shown, and both the stored token and the token
    variable keep the value they had. *)
Theorem verify_outcome (tab : state) (token : string) (trace : list event) (r : reply) :
  fresh_ids tab = true ->
  token <> "" ->
  forallb (fun e => negb (is_settle_of (next_request tab) e)) trace = true ->
  (forall a, field r "authenticated" = Some a -> truthy a = false ->
     localStorage (step (opened_with tab token trace) (Settle (next_request tab) r)) = None /\
     authToken (step (opened_with tab token trace) (Settle (next_request tab) r)) = JNull /\
     isAuthenticated (step (opened_with tab token trace) (Settle (next_request tab) r)) = false /\
     logged_out_view (step (opened_with tab token trace) (Settle (next_request tab) r))) /\
  (field r "authenticated" = None ->
     isAuthenticated (step (opened_with tab token trace) (Settle (next_request tab) r)) = false /\
     logged_out_view (step (opened_with tab token trace) (Settle (next_request tab) r)) /\
     localStorage (step (opened_with tab token trace) (Settle (next_request tab) r)) =
       localStorage (opened_with tab token trace) /\
     authToken (step (opened_with tab token trace) (Settle (next_request tab) r)) =
       authToken (opened_with tab token trace)).
Proof.
  intros Hfresh Htoken Htrace.
  apply verify_settles. unfold App.opened_with.
  apply parked_run; [exact Htrace|].
  now apply boot_parks_verify.
Qed.


(** C4. When a signup or an unregister fails (the request is rejected, the
    status is not a success, or there is no JSON body to read) the message
    area shows an error: the reply's [detail] when the body has a truthy
    one, a generic text otherwise.  No roster request is sent and the list,
    the dropdown, the signup form, both token stores and [isAuthenticated]
    keep their value. *)
Theorem failure_is_reported_only (s : state) (id : nat) (k : continuation) (r : reply) :
  parked id (in_flight s) = Some k ->
  roster_continuation k = true ->
  status_ok r = false \/ body_of r = None ->
  messageDiv (step s (Settle id r)) =
    notice (match body_of r with
            | Some result => or_else (Js.lookup_in result "detail") (JStr "An error occurred")
            | None => JStr (failure_notice k)
            end) "error" /\
  visible (messageDiv (step s (Settle id r))) = true /\
  requests (step s (Settle id r)) = requests s /\
  in_flight (step s (Settle id r)) = unpark id (in_flight s) /\
  same_roster s (step s (Settle id r)) /\
  same_session s (step s (Settle id r)) /\
  signupForm (step s (Settle id r)) = signupForm s.
Proof.
  intros Hk Hroster Hfail. revert Hfail.
  unfold body_of, status_ok, same_roster, same_session, Js.lookup_in.
  destruct k; try discriminate; open_state s; js; rewrite Hk; cases;
    intros [Hf|Hf]; try discriminate; repeat split.
Qed.

(** C5. A login reply with a success status and a JSON body stores the
    body's [token] in the token variable and, printed, in [localStorage], sets
    [isAuthenticated], and shows the body's [username] in the user box (the
    logged-out page when that name is empty or missing).  Any other reply
    changes neither store nor [isAuthenticated] and shows an error in the
    modal: the reply's [detail] when the body has a truthy one, a generic
    text otherwise. *)
Theorem login_outcome (s : state) (id : nat) (r : reply) :
  parked id (in_flight s) = Some AwaitLogin ->
  (forall result, status_ok r = true -> body_of r = Some result ->
     localStorage (step s (Settle id r)) = Some (to_string (Js.lookup_in result "token")) /\
     authToken (step s (Settle id r)) = Js.lookup_in result "token" /\
     isAuthenticated (step s (Settle id r)) = true /\
     (if truthy (Js.lookup_in result "username")
      then logged_in_view (Js.lookup_in result "username") (step s (Settle id r))
      else logged_out_view (step s (Settle id r)))) /\
  (status_ok r = false \/ body_of r = None ->
     same_session s (step s (Settle id r)) /\
     loginMessage (step s (Settle id r)) =
       notice (match body_of r with
               | Some result => or_else (Js.lookup_in result "detail") (JStr "Login failed")
               | None => JStr "Login failed. Please try again."
               end) "error" /\
     visible (loginMessage (step s (Settle id r))) = true).
Proof.
  intros Hk. unfold body_of, status_ok, Js.lookup_in.
  open_state s. js. rewrite Hk.
  split; [intros result|]; cases; intros;
    repeat match goal with
           | H : _ \/ _ |- _ => destruct H
           | H : Js.get _ _ = _ |- _ => unfold Js.get in H; cbn in H
           | H : Some _ = Some _ |- _ => injection H as <-
           end; try discriminate; try congruence; cbn;
    repeat match goal with H : truthy _ = _ |- _ => rewrite H end;
    views; repeat split.
Qed.

Lemma logout_settles (s : state) (id : nat) (r : reply) :
  parked id (in_flight s) = Some AwaitLogout ->
  localStorage (step s (Settle id r)) = None /\
  authToken (step s (Settle id r)) = JNull /\
  isAuthenticated (step s (Settle id r)) = false /\
  logged_out_view (step s (Settle id r)).
Proof.
  intros Hk. open_state s. js. rewrite Hk. cases; views; repeat split.
Qed.

(** C6. The logout button is clicked; other events may follow.  However the
    logout request then settles, rejected or answered, the stored token is
    removed, the token variable is null, [isAuthenticated] is false and the
    logged-out page is shown. *)
Theorem logout_always_clears (s : state) (trace : list event) (r : reply) :
  fresh_ids s = true ->
  forallb (fun e => negb (is_settle_of (next_request s) e)) trace = true ->
  localStorage (step (logging_out s trace) (Settle (next_request s) r)) = None /\
  authToken (step (logging_out s trace) (Settle (next_request s) r)) = JNull /\
  isAuthenticated (step (logging_out s trace) (Settle (next_request s) r)) = false /\
  logged_out_view (step (logging_out s trace) (Settle (next_request s) r)).
Proof.
  intros Hfresh Htrace.
  apply logout_settles. unfold App.logging_out.
  apply parked_run; [exact Htrace|].
  now apply handlers_park.
Qed.

(** A roster action that throws sets no timer. *)
Lemma thrown_action_sets_no_timer (s : state) (id : nat) (k : continuation) (r : reply) :
  parked id (in_flight s) = Some k ->
  roster_continuation k = true ->
  body_of r = None ->
  timers (step s (Settle id r)) = timers s.
Proof.
  intros Hk Hroster. unfold body_of.
  destruct k; try discriminate; open_state s; js; rewrite Hk; cases;
    intros; try discriminate; reflexivity.
Qed.

(** C8, as amended.  The message area holds one notice: a handler that
    shows one overwrites the text and the class of whatever was there and
    appends its own timer.  The timers set before stay: when the earliest
    of them comes due it hides the message area, whether or not the notice
    now in it has been up for its own delay. *)
Theorem show_overwrites_and_keeps_timers (s : state) (e : event)
    (text : value) (kind : string) (delay : N) :
  shown s e = Some (text, kind, delay) ->
  messageDiv (step s e) = notice text kind /\
  timers (step s e) = timers s ++ [((clock s + delay)%N, HideMessage)] /\
  forall (due ms : N),
    In (due, HideMessage) (timers s) ->
    (due <= clock s + ms)%N ->
    visible (messageDiv (step (step s e) (Elapse ms))) = false.
Proof.
  intros Hshown.
  assert (H : messageDiv (step s e) = notice text kind /\
              timers (step s e) = timers s ++ [((clock s + delay)%N, HideMessage)] /\
              clock (step s e) = clock s).
  { revert Hshown. unfold shown, attempted, body_of, status_ok, Js.lookup_in.
    destruct e; open_state s; cases; intros; try discriminate;
      repeat match goal with
             | H : Js.get _ _ = _ |- _ => unfold Js.get in H; cbn in H
             | H : Some _ = Some _ |- _ => injection H as <-
             end; try discriminate; try congruence;
      repeat match goal with H : (_, _) = (_, _) |- _ => injection H as <- end;
      subst; repeat split. }
  destruct H as (Hmsg & Htimers & Hclock).
  repeat split; try assumption.
  intros due ms Hin Hdue.
  apply (elapse_fires _ due HideMessage).
  - rewrite Htimers. apply in_or_app. now left.
  - now rewrite Hclock.
Qed.

(** A notice that has a timer is gone once its delay has passed. *)
Lemma shown_notice_expires (s : state) (e : event) (text : value) (kind : string)
    (delay ms : N) :
  shown s e = Some (text, kind, delay) ->
  (delay <= ms)%N ->
  visible (messageDiv (step (step s e) (Elapse ms))) = false.
Proof.
  intros Hshown Hms.
  assert (H : timers (step s e) = timers s ++ [((clock s + delay)%N, HideMessage)] /\
              clock (step s e) = clock s).
  { revert Hshown. unfold shown, attempted, body_of, status_ok, Js.lookup_in.
    destruct e; open_state s; cases; intros; try discriminate;
      repeat match goal with
             | H : Js.get _ _ = _ |- _ => unfold Js.get in H; cbn in H
             | H : Some _ = Some _ |- _ => injection H as <-
             end; try discriminate; try congruence;
      repeat match goal with H : (_, _) = (_, _) |- _ => injection H as <- end;
      subst; repeat split. }
  destruct H as (Htimers & Hclock).
  apply (elapse_fires _ (clock s + delay)%N HideMessage).
  - rewrite Htimers. apply in_or_app. right. now left.
  - rewrite Hclock. lia.
Qed.

Lemma loginMessage_run s trace :
  visible (loginMessage s) = true ->
  undismissed s trace = true ->
  visible (loginMessage (run s trace)) = true.
Proof.
  revert s. induction trace as [|e trace IH]; intros s Hv Hu; [exact Hv|].
  cbn in Hu. apply andb_true_iff in Hu as [Hd Hu]. apply negb_true_iff in Hd.
  cbn. apply IH; [|exact Hu].
  destruct (loginMessage_step s e Hd) as [Hsame Hlogin].
  destruct (is_login_reply s e).
  - now apply Hlogin.
  - now rewrite Hsame.
Qed.

(** C10. A login that fails (the request is rejected, the status is not a
    success, or there is no JSON body to read) shows its error in the login
    modal and sets no timer.  The notice then stays visible through every
    event, the passing of any amount of time included, until the modal is
    closed, its backdrop is clicked or a login succeeds; a later failed
    login only replaces it. *)
Theorem login_error_stays (s : state) (id : nat) (r : reply) (trace : list event) :
  parked id (in_flight s) = Some AwaitLogin ->
  status_ok r = false \/ body_of r = None ->
  undismissed (step s (Settle id r)) trace = true ->
  classList (loginMessage (step s (Settle id r))) = ["error"] /\
  timers (step s (Settle id r)) = timers s /\
  visible (loginMessage (step s (Settle id r))) = true /\
  visible (loginMessage (run (step s (Settle id r)) trace)) = true.
Proof.
  intros Hk Hfail Hquiet.
  assert (H : classList (loginMessage (step s (Settle id r))) = ["error"] /\
              timers (step s (Settle id r)) = timers s /\
              visible (loginMessage (step s (Settle id r))) = true).
  { clear Hquiet. revert Hfail. unfold body_of, status_ok.
    open_state s. js. rewrite Hk. cases; intros [Hf|Hf]; try discriminate; repeat split. }
  destruct H as (Hclass & Htimers & Hvisible).
  repeat split; try assumption.
  now apply loginMessage_run.
Qed.

End Properties.
(** ** The claims on the sample page *)

(** C7 on a concrete run: after a signup and the refresh that follows it, the
    list shows Chess Club once, with both participants, and the dropdown
    offers Chess Club twice. *)
Theorem refresh_duplicates_options :
  listed (activitiesList after_signup) = [("Chess Club", ["a@x.com"; "b@x.com"])] /\
  map option_value (activitySelect after_signup) = [""; "Chess Club"; "Chess Club"].
Proof. vm_compute. split; reflexivity. Qed.

(** C9 on a concrete run: the notice of an unregister whose request was
    rejected has no timer, and is still up after any amount of time. *)
Theorem thrown_notice_never_expires (ms : N) :
  timers failed_unregister = [] /\
  messageDiv (step unused_host failed_unregister (Elapse ms)) =
    notice unused_host (JStr "Failed to unregister. Please try again.") "error" /\
  visible (messageDiv (step unused_host failed_unregister (Elapse ms))) = true.
Proof. vm_compute. repeat split. Qed.

(** C8 refuted: the signup notice shown at 2000 ms is hidden at 3000 ms by
    the timer of the login notice shown at 0 ms, while its own timer
    (7000 ms) is still pending. *)
Lemma second_notice_hidden_early :
  messageDiv signup_soon_after_login =
    notice unused_host (JStr "Login successful! You can now register students.") "success" /\
  clock hidden_by_login_timer = 3000%N /\
  textContent (messageDiv hidden_by_login_timer) = "Signed up b@x.com for Chess Club" /\
  timers hidden_by_login_timer = [(7000%N, HideMessage)] /\
  visible (messageDiv hidden_by_login_timer) = false.
Proof. vm_compute. repeat split. Qed.

(** C2 refuted: after a rejected verification request the stored token and
    the token variable still hold the token. *)
Lemma failed_verification_keeps_token :
  parked 0 (in_flight returning_page) = Some AwaitVerify /\
  localStorage failed_verification = Some "3f9c" /\
  authToken failed_verification = JStr "3f9c" /\
  localStorage failed_verification <> None.
Proof. vm_compute. repeat split. discriminate. Qed.

(** *** The theorems at work *)

Lemma gate_denies_visitor :
  no_network visitor_page (step unused_host visitor_page (Click_deleteBtn 0)) /\
  same_roster visitor_page (step unused_host visitor_page (Click_deleteBtn 0)) /\
  same_session visitor_page (step unused_host visitor_page (Click_deleteBtn 0)) /\
  messageDiv (step unused_host visitor_page (Click_deleteBtn 0)) =
    notice unused_host (JStr "Please login as a teacher to unregister students.") "error" /\
  visible (messageDiv (step unused_host visitor_page (Click_deleteBtn 0))) = true /\
  timers (step unused_host visitor_page (Click_deleteBtn 0)) =
    timers visitor_page ++ [((clock visitor_page + 5000)%N, HideMessage)].
Proof.
  exact (gate_denies_unverified unused_host visitor_page (Click_deleteBtn 0)
           "Please login as a teacher to unregister students." eq_refl eq_refl).
Defined.

Lemma refused_token_is_cleared :
  localStorage (step unused_host returning_page
                  (Settle 0 (Response true (Some (JObj [("authenticated", JBool false)]))))) = None /\
  authToken (step unused_host returning_page
               (Settle 0 (Response true (Some (JObj [("authenticated", JBool false)]))))) = JNull /\
  isAuthenticated (step unused_host returning_page
                     (Settle 0 (Response true (Some (JObj [("authenticated", JBool false)]))))) = false /\
  logged_out_view (step unused_host returning_page
                     (Settle 0 (Response true (Some (JObj [("authenticated", JBool false)]))))).
Proof.
  destruct (verify_outcome unused_host sample_tab "3f9c" []
              (Response true (Some (JObj [("authenticated", JBool false)]))))
    as [Hrefused _]; [reflexivity|discriminate|reflexivity|].
  exact (Hrefused (JBool false) eq_refl eq_refl).
Defined.


Lemma refused_signup_is_reported :
  messageDiv (step unused_host signup_in_flight
                (Settle 2 (Response false (Some (says "detail" "Student is already signed up"))))) =
    notice unused_host (JStr "Student is already signed up") "error" /\
  requests (step unused_host signup_in_flight
              (Settle 2 (Response false (Some (says "detail" "Student is already signed up"))))) =
    requests signup_in_flight.
Proof.
  destruct (failure_is_reported_only unused_host signup_in_flight 2 AwaitSignup
              (Response false (Some (says "detail" "Student is already signed up")))
              eq_refl eq_refl (or_introl eq_refl))
    as (Hnotice & _ & Hrequests & _).
  split; [exact Hnotice|exact Hrequests].
Defined.

Lemma wrong_password_changes_nothing :
  same_session login_in_flight
    (step unused_host login_in_flight
       (Settle 1 (Response false (Some (says "detail" "Invalid credentials"))))) /\
  loginMessage (step unused_host login_in_flight
                  (Settle 1 (Response false (Some (says "detail" "Invalid credentials"))))) =
    notice unused_host (JStr "Invalid credentials") "error" /\
  visible (loginMessage (step unused_host login_in_flight
                           (Settle 1 (Response false (Some (says "detail" "Invalid credentials")))))) =
    true.
Proof.
  exact (proj2 (login_outcome unused_host login_in_flight 1
                  (Response false (Some (says "detail" "Invalid credentials"))) eq_refl)
           (or_introl eq_refl)).
Defined.

Lemma logout_clears_offline :
  localStorage (step unused_host logout_in_flight (Settle 2 NetworkError)) = None /\
  authToken (step unused_host logout_in_flight (Settle 2 NetworkError)) = JNull /\
  isAuthenticated (step unused_host logout_in_flight (Settle 2 NetworkError)) = false /\
  logged_out_view (step unused_host logout_in_flight (Settle 2 NetworkError)).
Proof.
  exact (logout_always_clears unused_host teacher_page [] NetworkError eq_refl eq_refl).
Defined.

Lemma login_timer_hides_signup_notice :
  timers (step unused_host signup_soon_after_login
            (Settle 2 (Response true (Some (says "message" "Signed up b@x.com for Chess Club"))))) =
    [(3000%N, HideMessage); (7000%N, HideMessage)] /\
  visible (messageDiv hidden_by_login_timer) = false.
Proof.
  destruct (show_overwrites_and_keeps_timers unused_host signup_soon_after_login
              (Settle 2 (Response true (Some (says "message" "Signed up b@x.com for Chess Club"))))
              (JStr "Signed up b@x.com for Chess Club") "success" 5000%N eq_refl)
    as (_ & Htimers & Hearly).
  split.
  - exact Htimers.
  - apply (Hearly 3000%N 1000%N); [now left|vm_compute; discriminate].
Defined.

Lemma wrong_password_notice_stays :
  classList (loginMessage (step unused_host login_in_flight
                             (Settle 1 (Response false (Some (says "detail" "Invalid credentials")))))) =
    ["error"] /\
  timers (step unused_host login_in_flight
            (Settle 1 (Response false (Some (says "detail" "Invalid credentials"))))) =
    timers login_in_flight /\
  visible (loginMessage (step unused_host login_in_flight
                           (Settle 1 (Response false (Some (says "detail" "Invalid credentials")))))) =
    true /\
  visible (loginMessage
             (run unused_host
                (step unused_host login_in_flight
                   (Settle 1 (Response false (Some (says "detail" "Invalid credentials")))))
                [Elapse 60000; Submit_signupForm; Elapse 60000; Submit_loginForm;
                 Settle 2 NetworkError; Elapse 60000])) = true.
Proof.
  exact (login_error_stays unused_host login_in_flight 1
           (Response false (Some (says "detail" "Invalid credentials")))
           [Elapse 60000; Submit_signupForm; Elapse 60000; Submit_loginForm;
            Settle 2 NetworkError; Elapse 60000]
           eq_refl (or_introl eq_refl) eq_refl).
Defined.


(** ** Further properties of the script *)

(** *** Bodies without markup characters *)

Lemma markup_free_prints_plain : forall v, markup_free v = true -> prints_plain v = true.
Proof.
  fix IH 1. intros [| | | |s|items|fields]; cbn; try reflexivity; try (intros H; exact H).
  induction items as [|item items IHitems]; cbn; [reflexivity|].
  intros H. apply andb_true_iff in H as [Hitem Hitems].
  now rewrite (IH item Hitem), (IHitems Hitems).
Qed.

Lemma markup_free_lookup k fields :
  markup_free (JObj fields) = true -> markup_free (Js.lookup k fields) = true.
Proof.
  cbn. induction fields as [|[k' v] fields IH]; cbn; [reflexivity|].
  intros H. apply andb_true_iff in H as [Hv Hfields]. apply andb_true_iff in Hv as [_ Hv].
  destruct (k =? k'); auto.
Qed.

Lemma markup_free_items items :
  markup_free (JArr items) = true -> forallb prints_plain items = true.
Proof.
  cbn. induction items as [|item items IH]; cbn; [reflexivity|].
  intros H. apply andb_true_iff in H as [Hitem Hitems].
  now rewrite (markup_free_prints_plain item Hitem), (IH Hitems).
Qed.

Section Coverage.

Variable host : engine.

#[local] Abbreviation step := (App.step host).
#[local] Abbreviation run := (App.run host).
#[local] Abbreviation boot := (App.boot host).
#[local] Abbreviation to_string := (App.to_string host).
#[local] Abbreviation notice := (App.notice host).
#[local] Abbreviation logged_in_view := (App.logged_in_view host).
#[local] Abbreviation append_activity := (App.append_activity host).
#[local] Abbreviation activity_card := (App.activity_card host).
#[local] Abbreviation gt_zero := (App.gt_zero host).
#[local] Abbreviation unreadable := (App.unreadable host).
#[local] Abbreviation cannot_render := (App.cannot_render host).
#[local] Abbreviation until_unreadable := (App.until_unreadable host).
#[local] Abbreviation loads := (App.loads host).
#[local] Abbreviation never := (App.never host).

#[local] Arguments visible : simpl never.
#[local] Arguments classList_add : simpl never.
#[local] Arguments classList_remove : simpl never.
#[local] Arguments set_className : simpl never.
#[local] Arguments set_textContent : simpl never.
#[local] Arguments App.to_string : simpl never.
#[local] Arguments text_of : simpl never.
#[local] Arguments encodeURIComponent : simpl never.
#[local] Arguments plain : simpl never.
#[local] Arguments prints_plain : simpl never.
#[local] Arguments markup_free : simpl never.
#[local] Arguments all_display : simpl never.
#[local] Arguments targets : simpl never.

(** The symbolic execution of the claims' section, once more. *)
Ltac open_state s := destruct s; cbn in *; subst.

Ltac js :=
  repeat progress
    (unfold App.step, handle, settle, resume, elapse,
       DOMContentLoaded, checkAuth, checkAuth_resume, updateUIForAuth,
       updateDeleteButtonsVisibility,
       loginBtn_click, closeModal_click, window_click, loginForm_submit, loginForm_resume,
       logoutBtn_click, logoutBtn_resume, fetchActivities,
       handleUnregister, handleUnregister_resume, handleUnregister_catch,
       signupForm_submit, signupForm_resume, signupForm_catch, setItem,
       exec, bind, ret, throw, try_catch, read, modify, write, prop, encode, awaited, json,
       console_error, setTimeout, fetch, constant in *;
     cbn in *).

Ltac frame_loops :=
  match goal with
  | |- context [fetchActivities_resume ?f ?r ?S] =>
      let s' := fresh "s'" in
      let F := fresh "F" in
      pose proof (fetchActivities_resume_frame f r S) as F; unfold refresh_frame in F;
      set (s' := snd (fetchActivities_resume f r S)) in *; clearbody s';
      rewrite F; clear F; cbn
  | |- context [forEach ?l (fun timer : N * callback => run_callback (snd timer)) ?S] =>
      let s' := fresh "s'" in
      let F := fresh "F" in
      pose proof (callbacks_frame l S) as F; unfold message_frame in F;
      set (s' := snd (forEach l (fun timer : N * callback => run_callback (snd timer)) S)) in *;
      clearbody s'; rewrite F; clear F; cbn
  end.

Ltac branch :=
  match goal with
  | |- _ => frame_loops
  | |- context [match ?x with _ => _ end] => is_var x; destruct x
  | |- context [match parked ?i ?l with _ => _ end] => destruct (parked i l) eqn:?
  | |- context [match Js.get ?v ?k with _ => _ end] => destruct (Js.get v k) eqn:?
  | |- context [if truthy ?v then _ else _] => destruct (truthy v) eqn:?
  | |- context [match nth_error ?l ?k with _ => _ end] => destruct (nth_error l k) eqn:?
  | |- context [if negb ?b then _ else _] => destruct b eqn:?
  | |- context [match encodeURIComponent ?t with _ => _ end] =>
      destruct (encodeURIComponent t) eqn:?
  end.

Ltac cases := repeat (js; branch); js.

Ltac encodings :=
  repeat match goal with
         | |- context [encodeURIComponent ?t] => destruct (encodeURIComponent t)
         end.

Ltac readings :=
  repeat match goal with
         | H : Js.get _ _ = _ |- _ => unfold Js.get in H; cbn in H
         | H : Some _ = Some _ |- _ => injection H as <-
         | H : _ \/ _ |- _ => destruct H
         end.

(** *** The session *)

(** X1. Along every run from the opening of the page, the stored item is the
    token variable printed, and the variable is null when there is no item:
    every handler that writes one writes the other, and [setItem] stores
    [String(authToken)]. *)
Theorem stored_token_is_the_variable_printed (persisted : option string) (tab : state)
    (trace : list event) :
  stored_as to_string (authToken (run (boot persisted tab) trace))
                      (localStorage (run (boot persisted tab) trace)).
Proof.
  assert (Hboot : stored_as to_string (authToken (boot persisted tab))
                                      (localStorage (boot persisted tab))).
  { unfold App.boot, stored_as. open_state tab. destruct persisted; cases; reflexivity. }
  assert (Hstep : forall s e, stored_as to_string (authToken s) (localStorage s) ->
                              stored_as to_string (authToken (step s e)) (localStorage (step s e))).
  { intros s e. unfold stored_as. destruct e; open_state s; cases;
      intros; subst; try reflexivity; assumption. }
  generalize dependent (boot persisted tab). clear tab persisted.
  induction trace as [|e trace IH]; intros s Hs; [exact Hs|].
  cbn. apply IH. now apply Hstep.
Qed.

(** X2. Only the reply to a verify, login or logout request changes the
    token variable, [isAuthenticated] or the stored token: no click, input,
    timer, roster reply or signup or unregister reply does. *)
Theorem session_changes_only_on_replies (s : state) (e : event) :
  is_session_reply s e = false ->
  same_session s (step s e).
Proof.
  unfold is_session_reply, same_session.
  destruct e; open_state s; cases; intros; try discriminate; repeat split.
Qed.

(** X3. The page never opens the gate by itself: [isAuthenticated] goes from
    false to true only on a verify reply whose body has a truthy
    [authenticated] or on a login reply with a success status and a body. *)
Theorem gate_opens_only_on_accepted_reply (s : state) (e : event) :
  isAuthenticated s = false ->
  isAuthenticated (step s e) = true ->
  accepted s e = true.
Proof.
  unfold accepted, field, body_of, status_ok. intros Hgate. revert Hgate.
  destruct e; open_state s; cases; intros; readings;
    try discriminate; try congruence; reflexivity.
Qed.

(** *** Delete buttons *)

Lemma delete_buttons_app l l' :
  delete_buttons (l ++ l') = delete_buttons l ++ delete_buttons l'.
Proof.
  induction l as [|[c|name details buttons|text] l IH]; cbn; [reflexivity| | |exact IH];
    now rewrite IH, app_assoc.
Qed.

Lemma delete_buttons_restyle auth l :
  delete_buttons (map (restyle auth) l) = map (restyle_button auth) (delete_buttons l).
Proof.
  induction l as [|[c|name details buttons|text] l IH]; cbn; [reflexivity| | |exact IH];
    rewrite map_app, IH; [|reflexivity].
  f_equal. destruct c as [name description schedule spots lis]. cbn. unfold constant.
  rewrite !map_map. apply map_ext. now intros [email btn].
Qed.

Lemma all_display_restyle auth l : all_display auth (map (restyle auth) l) = true.
Proof.
  unfold all_display. rewrite delete_buttons_restyle.
  induction (delete_buttons l) as [|b bs IH]; cbn; [reflexivity|].
  rewrite IH. unfold constant. now rewrite String.eqb_refl.
Qed.

Lemma all_display_app auth l l' :
  all_display auth (l ++ l') = all_display auth l && all_display auth l'.
Proof. unfold all_display. now rewrite delete_buttons_app, forallb_app. Qed.

(** An entry without markup characters is rendered, if at all, as the card
    its markup spells out, with its buttons styled for [auth]. *)
Lemma activity_card_plain auth name details n :
  plain_entry (name, details) = true ->
  activity_card auth name details = Some n ->
  all_display auth [n] = true /\ exists c, n = ActivityCard c.
Proof.
  unfold plain_entry. cbn [fst snd]. intros Hplain.
  apply andb_true_iff in Hplain as [Hname Hfree].
  unfold App.activity_card.
  destruct details as [| | | | | |fields]; cbn; try discriminate.
  pose proof (markup_free_prints_plain _ (markup_free_lookup "description" fields Hfree)) as Hd.
  pose proof (markup_free_prints_plain _ (markup_free_lookup "schedule" fields Hfree)) as Hs.
  pose proof (markup_free_lookup "participants" fields Hfree) as Hp.
  destruct (Js.get (Js.lookup "participants" fields) "length") as [len|]; [|discriminate].
  rewrite Hname, Hd, Hs. cbn [andb].
  destruct (App.gt_zero host len).
  - destruct (Js.lookup "participants" fields) as [| | | | |items|]; try discriminate.
    cbn. rewrite (markup_free_items items Hp). intros [= <-]. split; [|eauto].
    unfold all_display. cbn. rewrite app_nil_r, map_map. cbn.
    clear Hp. induction items as [|item items IH]; cbn; [reflexivity|].
    now rewrite String.eqb_refl.
  - cbn. intros [= <-]. split; [reflexivity|eauto].
Qed.

Lemma forEach_append_display es s :
  forallb plain_entry es = true ->
  buttons_follow_auth s = true ->
  buttons_follow_auth (snd (forEach es append_activity s)) = true.
Proof.
  revert s. induction es as [|[name details] es IH]; intros s Hes Hs; [exact Hs|].
  cbn in Hes. apply andb_true_iff in Hes as [He Hes].
  cbn [forEach]. unfold bind at 1. unfold App.append_activity at 1.
  unfold bind at 1, read at 1. cbn [fst snd].
  destruct (activity_card _ _ _) as [n|] eqn:Hn; [|exact Hs].
  js. apply IH; [exact Hes|]. apply (activity_card_plain _ _ _ _ He) in Hn as [Hn _].
  unfold buttons_follow_auth in *. destruct s; cbn in *. unfold constant.
  now rewrite all_display_app, Hs, Hn.
Qed.

Lemma fetchActivities_resume_display r s :
  forallb plain_entry (entries_of r) = true ->
  buttons_follow_auth (snd (fetchActivities_resume host r s)) = true.
Proof.
  intros Hplain. unfold fetchActivities_resume.
  destruct r as [|ok [activities|]]; js; try (destruct s; reflexivity).
  cbn in Hplain.
  destruct (Js.entries activities) as [es|]; js; try (destruct s; reflexivity).
  pose proof (forEach_append_display es (s <| activitiesList := [] |>) Hplain) as H.
  destruct (forEach es _ _) as [[[]|] s']; cbn in *.
  - apply H. destruct s; reflexivity.
  - destruct s'; reflexivity.
Qed.

Lemma buttons_follow_auth_step s e :
  serves_markup s e = false ->
  buttons_follow_auth s = true -> buttons_follow_auth (step s e) = true.
Proof.
  intros Hserved Hs.
  destruct (is_roster_reply s e) eqn:Hroster.
  - destruct e as [| | | | | | | | |id r|]; try discriminate.
    cbn [serves_markup] in Hserved. rewrite Hroster in Hserved. cbn in Hserved.
    apply negb_false_iff in Hserved. cbn in Hroster.
    unfold App.step, handle, settle, exec, bind at 1, read at 1. cbn.
    destruct (parked id (in_flight s)) as [[]|]; try discriminate.
    unfold bind, modify. cbn [resume fst snd].
    now apply fetchActivities_resume_display.
  - clear Hserved. revert Hroster. unfold is_roster_reply, buttons_follow_auth in *.
    destruct e; open_state s; cases; intros; try discriminate;
      rewrite ?all_display_restyle; try reflexivity; try assumption; try congruence;
      match goal with H : Js.get ?v _ = None |- _ => destruct v; discriminate end.
Qed.

(** X4. In a document that comes without delete buttons, and as long as no
    roster reply carries a markup character, each delete button of the list
    is displayed exactly when [isAuthenticated] is true: its [style.display]
    is [inline] then and [none] otherwise. *)
Theorem delete_buttons_follow_auth (persisted : option string) (tab : state)
    (trace : list event) :
  delete_buttons (activitiesList tab) = [] ->
  never serves_markup (boot persisted tab) trace = true ->
  buttons_follow_auth (run (boot persisted tab) trace) = true.
Proof.
  intros Hnone.
  assert (Hboot : buttons_follow_auth (boot persisted tab) = true).
  { unfold App.boot, buttons_follow_auth. open_state tab.
    destruct persisted; cases; rewrite ?all_display_restyle; try reflexivity;
      unfold all_display; now rewrite Hnone. }
  generalize dependent (boot persisted tab). clear tab persisted Hnone.
  induction trace as [|e trace IH]; intros s Hs Hplain; [exact Hs|].
  cbn in Hplain. apply andb_true_iff in Hplain as [He Hplain]. apply negb_true_iff in He.
  cbn. apply IH; [|exact Hplain]. now apply buttons_follow_auth_step.
Qed.

(** X5. A verify reply whose body has a truthy [authenticated] opens the gate
    and leaves both token stores and the request log as they are, whatever
    they hold by then.  The delete buttons are displayed and the page shows
    the reply's [username]; when that is empty or missing the gate is open
    behind the logged-out page. *)
Theorem verify_accepted (s : state) (id : nat) (r : reply) (a : value) :
  parked id (in_flight s) = Some AwaitVerify ->
  field r "authenticated" = Some a ->
  truthy a = true ->
  isAuthenticated (step s (Settle id r)) = true /\
  authToken (step s (Settle id r)) = authToken s /\
  localStorage (step s (Settle id r)) = localStorage s /\
  requests (step s (Settle id r)) = requests s /\
  all_display true (activitiesList (step s (Settle id r))) = true /\
  forall username, field r "username" = Some username ->
    if truthy username
    then logged_in_view username (step s (Settle id r))
    else logged_out_view (step s (Settle id r)).
Proof.
  intros Hk. unfold field, body_of, App.logged_in_view, logged_out_view.
  open_state s. js. rewrite Hk. cases; intros; readings;
    try discriminate; try congruence;
    (repeat split; rewrite ?all_display_restyle; try reflexivity);
    intros; readings; try discriminate;
    repeat match goal with H : truthy _ = _ |- _ => rewrite H end;
    rewrite ?visible_add_hidden, ?visible_remove_hidden; repeat split.
Qed.

(** *** Start *)


(** *** The roster *)

(** The three places where the body of the loop throws, and no other. *)
Lemma activity_card_readable auth name details :
  if unreadable details
  then activity_card auth name details = None
  else exists n, activity_card auth name details = Some n /\ node_name n = Some name.
Proof.
  unfold App.unreadable, App.activity_card.
  destruct (Js.get details "participants") as [participants|] eqn:Hp.
  - assert (Hd : forall k, Js.get details k = Some (Js.lookup_in details k)).
    { intros k. unfold Js.lookup_in. destruct details; try discriminate; reflexivity. }
    rewrite !Hd.
    destruct (Js.get participants "length") as [len|]; [|reflexivity].
    destruct (App.gt_zero host len); cbn [andb].
    + destruct participants; cbn; try reflexivity.
      eexists. split; [reflexivity|]. now destruct (_ && _).
    + eexists. split; [reflexivity|]. now destruct (_ && _).
  - destruct details; try discriminate; reflexivity.
Qed.

Lemma append_activity_run e s :
  append_activity e s =
    match activity_card (isAuthenticated s) (fst e) (snd e) with
    | Some n =>
        (Returned tt,
         s <| activitiesList ::= fun l => l ++ [n] |>
           <| activitySelect ::= fun l => l ++ [option_for (fst e)] |>)
    | None => (Thrown, s)
    end.
Proof.
  unfold App.append_activity, bind, read, modify.
  destruct (activity_card _ _ _); reflexivity.
Qed.

(** The loop on any entries: a card and an option for each entry before the
    first one on which the body throws. *)
Lemma forEach_append_until es s :
  exists nodes,
    activitiesList (snd (forEach es append_activity s)) = activitiesList s ++ nodes /\
    map node_name nodes = map titled (until_unreadable es) /\
    activitySelect (snd (forEach es append_activity s)) =
      activitySelect s ++ map option_for (map fst (until_unreadable es)) /\
    fst (forEach es append_activity s) =
      if existsb (fun e => unreadable (snd e)) es then Thrown else Returned tt.
Proof.
  revert s. induction es as [|[name details] es IH]; intros s.
  - exists []. cbn. now rewrite !app_nil_r.
  - cbn [forEach existsb App.until_unreadable fst snd]. unfold bind.
    rewrite append_activity_run. cbn [fst snd].
    pose proof (activity_card_readable (isAuthenticated s) name details) as Hcard.
    destruct (unreadable details).
    + rewrite Hcard. exists []. cbn. now rewrite !app_nil_r.
    + destruct Hcard as (n & -> & Hname).
      destruct (IH (s <| activitiesList ::= fun l => l ++ [n] |>
                      <| activitySelect ::= fun l => l ++ [option_for name] |>))
        as (nodes & Hlist & Hnames & Hsel & Hout).
      exists (n :: nodes). rewrite Hlist, Hsel, Hout. destruct s; cbn. unfold constant.
      rewrite <- !app_assoc. cbn. rewrite Hnames, Hname. repeat split.
Qed.

(** X7. A roster reply is rendered all or nothing, whatever its status and
    its body.  When the reply has a body to loop over and the body of the
    loop throws on none of its entries, the list becomes one card per entry,
    in order and under the entries' names; otherwise the list becomes the
    single failure paragraph and the error is logged.  Either way the
    dropdown gains one option for each entry before the first one on which
    the loop throws, and the message area, the timers, the session and the
    request log are not touched. *)
Theorem roster_reply_all_or_nothing (s : state) (id : nat) (r : reply) :
  parked id (in_flight s) = Some AwaitActivities ->
  (if loads r
   then map node_name (activitiesList (step s (Settle id r))) = map titled (entries_of r) /\
        console (step s (Settle id r)) = console s
   else activitiesList (step s (Settle id r)) = [load_failure] /\
        console (step s (Settle id r)) = console s ++ ["Error fetching activities:"]) /\
  activitySelect (step s (Settle id r)) =
    activitySelect s ++ map option_for (map fst (until_unreadable (entries_of r))) /\
  messageDiv (step s (Settle id r)) = messageDiv s /\
  timers (step s (Settle id r)) = timers s /\
  same_session s (step s (Settle id r)) /\
  requests (step s (Settle id r)) = requests s.
Proof.
  intros Hk. split; [|split].
  - unfold load_failure, App.loads, reaches_loop, entries_of.
    open_state s. js. rewrite Hk. js. unfold fetchActivities_resume.
    destruct r as [|ok [activities|]]; js; try (split; reflexivity).
    destruct (Js.entries activities) as [es|]; js; try (split; reflexivity).
    match goal with
    | |- context [forEach es _ ?S] =>
        destruct (forEach_append_until es S) as (nodes & Hlist & Hnames & _ & Hout);
        pose proof (forEach_append_frame host es S) as F; unfold roster_frame in F;
        destruct (forEach es (App.append_activity host) S) as [o s']
    end.
    cbn in Hlist, Hout, F. subst o.
    destruct (existsb _ es) eqn:Hbad; cbn.
    + rewrite F. cbn. split; reflexivity.
    + rewrite F. cbn. unfold constant. rewrite Hlist. split; [|reflexivity]. rewrite Hnames.
      f_equal. clear - Hbad. induction es as [|e es IH]; cbn in *; [reflexivity|].
      apply orb_false_iff in Hbad as [-> Hbad]. now rewrite IH.
  - unfold entries_of. open_state s. js. rewrite Hk. js. unfold fetchActivities_resume.
    destruct r as [|ok [activities|]]; js; try now rewrite app_nil_r.
    destruct (Js.entries activities) as [es|]; js; try now rewrite app_nil_r.
    match goal with
    | |- context [forEach es _ ?S] =>
        destruct (forEach_append_until es S) as (nodes & _ & _ & Hsel & _);
        pose proof (forEach_append_frame host es S) as F; unfold roster_frame in F;
        destruct (forEach es (App.append_activity host) S) as [o s']
    end.
    cbn in Hsel, F. destruct o as [[]|]; js; rewrite F; cbn; unfold constant; exact Hsel.
  - unfold same_session. open_state s. js. rewrite Hk. cases. repeat split.
Qed.

Lemma listed_restyle auth l : listed (map (restyle auth) l) = listed l.
Proof.
  induction l as [|[c|name details buttons|text] l IH]; cbn; [reflexivity| |exact IH|exact IH].
  rewrite IH. destruct c as [name description schedule spots lis]. cbn. unfold constant.
  do 2 f_equal. rewrite map_map. apply map_ext. now intros [email btn].
Qed.

Lemma targets_restyle auth l : targets (map (restyle auth) l) = targets l.
Proof.
  unfold targets. rewrite delete_buttons_restyle, map_map. apply map_ext.
  now intros [activity email display].
Qed.

(** X8. Only a roster reply changes what the list shows and what the
    dropdown offers.  Every other event leaves the dropdown as it is and
    the list either as it is or with its delete buttons restyled: the
    names, the participants and the buttons' targets stay. *)
Theorem roster_changes_only_on_roster_reply (s : state) (e : event) :
  is_roster_reply s e = false ->
  activitySelect (step s e) = activitySelect s /\
  (activitiesList (step s e) = activitiesList s \/
   activitiesList (step s e) = map (restyle (isAuthenticated (step s e))) (activitiesList s)) /\
  listed (activitiesList (step s e)) = listed (activitiesList s) /\
  targets (activitiesList (step s e)) = targets (activitiesList s).
Proof.
  intros Hroster.
  assert (H : activitySelect (step s e) = activitySelect s /\
              (activitiesList (step s e) = activitiesList s \/
               activitiesList (step s e) =
                 map (restyle (isAuthenticated (step s e))) (activitiesList s))).
  { revert Hroster. unfold is_roster_reply.
    destruct e; open_state s; cases; intros; try discriminate;
      (split; [reflexivity|]); first [now left | now right]. }
  destruct H as (Hsel & Hlist). split; [exact Hsel|]. split; [exact Hlist|].
  destruct Hlist as [->| ->]; rewrite ?listed_restyle, ?targets_restyle; split; reflexivity.
Qed.

Lemma unreadable_spec details : unreadable details = true <-> cannot_render details.
Proof.
  unfold App.unreadable, App.cannot_render, Js.lookup_in.
  destruct (Js.get details "participants") as [participants|] eqn:Hp.
  - assert (Hd : details <> JUndefined /\ details <> JNull).
    { split; intros ->; discriminate. }
    destruct (Js.get participants "length") as [len|] eqn:Hl.
    + assert (Hq : participants <> JUndefined /\ participants <> JNull).
      { split; intros ->; discriminate. }
      rewrite andb_true_iff, negb_true_iff. split.
      * intros H. now right; right; right; right.
      * intros [H|[H|[H|[H|H]]]]; try tauto.
    + split; [intros _|reflexivity].
      destruct participants; try discriminate; tauto.
  - split; [intros _|reflexivity]. destruct details; try discriminate; tauto.
Qed.

(** X18. One entry on which the loop throws fails the whole list, and
    nothing else does.  For a roster reply whose body has entries, the list
    becomes the single failure paragraph exactly when some entry's value is
    null or missing, or has a [participants] that is null or missing, or
    has a [participants] that is not an array although its [length] is
    positive.  (A [participants] without a positive [length], such as an
    object, is rendered as a card without participants.) *)
Theorem one_bad_entry_fails_the_list (s : state) (id : nat) (ok : bool)
    (activities : value) (es : list (string * value)) :
  parked id (in_flight s) = Some AwaitActivities ->
  Js.entries activities = Some es ->
  (activitiesList (step s (Settle id (Response ok (Some activities)))) = [load_failure] <->
   exists name details, In (name, details) es /\ cannot_render details).
Proof.
  intros Hk Hes.
  assert (H : if existsb (fun e => unreadable (snd e)) es
              then activitiesList (step s (Settle id (Response ok (Some activities)))) =
                     [load_failure]
              else map node_name
                     (activitiesList (step s (Settle id (Response ok (Some activities))))) =
                   map titled es).
  { open_state s. js. rewrite Hk. js. unfold fetchActivities_resume. js. rewrite Hes.
    match goal with
    | |- context [forEach es _ ?S] =>
        destruct (forEach_append_until es S) as (nodes & Hlist & Hnames & _ & Hout);
        pose proof (forEach_append_frame host es S) as F; unfold roster_frame in F;
        destruct (forEach es (App.append_activity host) S) as [o s']
    end.
    cbn in Hlist, Hout, F. subst o.
    destruct (existsb _ es) eqn:Hbad; cbn; [reflexivity|].
    rewrite F. cbn. unfold constant. rewrite Hlist, Hnames. f_equal.
    clear - Hbad. induction es as [|e es IH]; cbn in *; [reflexivity|].
    apply orb_false_iff in Hbad as [-> Hbad]. now rewrite IH. }
  destruct (existsb _ es) eqn:Hbad.
  - split; [intros _|intros _; exact H].
    apply existsb_exists in Hbad as ([name details] & Hin & Hbad).
    exists name, details. split; [exact Hin|]. now apply unreadable_spec.
  - split.
    + intros Hfail. rewrite Hfail in H. destruct es; discriminate.
    + intros (name & details & Hin & Hcannot). apply unreadable_spec in Hcannot.
      assert (Hex : existsb (fun e => unreadable (snd e)) es = true).
      { apply existsb_exists. now exists (name, details). }
      congruence.
Qed.

(** X9. With the gate open and a list of the script's own markup, a
    submitted signup form or a clicked delete button passes the activity
    and the email through [encodeURIComponent].
    When both can be encoded, exactly one request is sent, with the two
    components as encoded and the token variable as its bearer, and nothing
    is shown.  When one of them has a surrogate that is not half of a pair,
    no request is sent and the failure notice is shown.  Neither way is a
    timer set or the list, the dropdown or the session touched. *)
Theorem gate_admits_verified (s : state) (e : event) (activity email : string) :
  isAuthenticated s = true ->
  own_markup (activitiesList s) = true ->
  components s e = Some (activity, email) ->
  timers (step s e) = timers s /\
  same_roster s (step s e) /\
  same_session s (step s e) /\
  match encodeURIComponent activity, encodeURIComponent email with
  | Some a, Some b =>
      requests (step s e) = requests s ++ [action_request e a b (authToken s)] /\
      next_request (step s e) = S (next_request s) /\
      messageDiv (step s e) = messageDiv s
  | _, _ =>
      no_network s (step s e) /\
      messageDiv (step s e) = notice (JStr (action_failure e)) "error"
  end.
Proof.
  intros Hgate _ Hact. unfold same_roster, same_session, no_network.
  destruct e; try discriminate; open_state s.
  - injection Hact as <- <-. js.
    encodings; js; repeat split.
  - js. destruct (nth_error _ k); [|discriminate]. injection Hact as <- <-. js.
    encodings; js; repeat split.
Qed.







(** X11. Roster replies are rendered in the order they settle, not in the
    order they were asked for: with two roster requests in flight, the list
    shows the roster of the one that settles last, however the other one
    settled. *)
Theorem last_settled_roster_wins (s : state) (first last : nat) (r : reply) (ok : bool)
    (roster : list (string * value)) :
  parked first (in_flight s) = Some AwaitActivities ->
  parked last (in_flight s) = Some AwaitActivities ->
  Nat.eqb last first = false ->
  well_formed roster = true ->
  listed (activitiesList
            (run s [Settle first r; Settle last (Response ok (Some (JObj roster)))])) =
    served roster.
Proof.
  intros Hfirst Hlast Hne Hwf. cbn [App.run fold_left].
  apply (refresh_well_formed host); [|exact Hwf].
  apply (parked_step host); [|exact Hlast].
  cbn. exact Hne.
Qed.

(** *** Timers and requests *)

(** X12. A handler never cancels a timer, never sets more than one and never
    moves the clock: after any event other than the passing of time the
    timers are those before, followed at most by one that hides the message
    area 3000 or 5000 ms from now. *)
Theorem one_timer_at_most (s : state) (e : event) :
  is_elapse e = false ->
  clock (step s e) = clock s /\
  (timers (step s e) = timers s \/
   timers (step s e) = timers s ++ [((clock s + 3000)%N, HideMessage)] \/
   timers (step s e) = timers s ++ [((clock s + 5000)%N, HideMessage)]).
Proof.
  intros He. destruct e; try discriminate; open_state s; cases;
    (split; [reflexivity|]); auto.
Qed.

(** X13. Nothing is retried and nothing is chained but the refresh: the
    settling of a request sends one roster request when it is a signup or
    unregister reply with a success status and a body, and no request at
    all otherwise. *)
Theorem settling_sends_only_the_refresh (s : state) (id : nat) (r : reply) :
  requests (step s (Settle id r)) =
    requests s ++ (if refreshes s id r then [GET_activities] else []).
Proof.
  unfold refreshes, body_of, status_ok.
  open_state s; cases; rewrite ?app_nil_r; reflexivity.
Qed.

(** *** Notices *)

Lemma textContent_remove c el : textContent (classList_remove c el) = textContent el.
Proof. now destruct el. Qed.

Lemma textContent_className c el : textContent (set_className c el) = textContent el.
Proof. now destruct el. Qed.

Lemma textContent_set v el : textContent (set_textContent host v el) = text_of host v.
Proof. now destruct el. Qed.

(** A truthy value prints as something, unless it is a list (or a number,
    whose print the model leaves to the host beyond 2^53). *)
Lemma text_of_truthy v :
  truthy v = true ->
  is_array v = false ->
  is_number v = false ->
  text_of host v <> "".
Proof.
  unfold text_of, App.to_string.
  destruct v as [| |[]| |s| |]; cbn; try discriminate.
  intros Hs _ _. apply negb_true_iff in Hs. now apply String.eqb_neq.
Qed.

Lemma text_of_or_else detail fallback :
  is_array detail = false ->
  is_number detail = false ->
  fallback <> "" ->
  text_of host (or_else detail (JStr fallback)) <> "".
Proof.
  intros Harray Hnumber Hfallback. unfold or_else.
  destruct (truthy detail) eqn:Htruthy; [now apply text_of_truthy|exact Hfallback].
Qed.

Ltac blank :=
  rewrite ?textContent_remove, ?textContent_className, ?textContent_set;
  lazymatch goal with
  | |- _ /\ _ =>
      split;
      [ intros ? ?;
        first [ discriminate
              | now apply text_of_truthy
              | (apply text_of_or_else; [assumption|assumption|discriminate])
              | (unfold text_of, App.to_string; cbn; discriminate) ]
      | let Hempty := fresh "Hempty" in
        intros Hempty;
        first [ discriminate | (rewrite Hempty in *; first [discriminate | reflexivity]) ] ]
  | |- _ => first [ discriminate | (unfold text_of, App.to_string; cbn; discriminate) ]
  end.

(** X14. An error box is blank only for a [detail] that prints as nothing.
    When a login, a signup or an unregister fails (the request is rejected,
    the status is not a success, or there is no body to read), the login
    modal or the message area is shown with the class [error]; its text is
    not empty when the body's [detail] is missing or is a string, a boolean
    or an object, and it is empty when [detail] is the empty array, which
    is truthy and prints as nothing. *)
Theorem error_notice_blank_only_for_lists (s : state) (id : nat) (k : continuation)
    (r : reply) :
  parked id (in_flight s) = Some k ->
  reports_errors k = true ->
  status_ok r = false \/ body_of r = None ->
  classList (error_area k (step s (Settle id r))) = ["error"] /\
  visible (error_area k (step s (Settle id r))) = true /\
  match field r "detail" with
  | Some detail =>
      (is_array detail = false -> is_number detail = false ->
       textContent (error_area k (step s (Settle id r))) <> "") /\
      (detail = JArr [] -> textContent (error_area k (step s (Settle id r))) = "")
  | None => textContent (error_area k (step s (Settle id r))) <> ""
  end.
Proof.
  intros Hk Hrep Hfail. revert Hfail. unfold field, body_of, status_ok.
  destruct k; try discriminate; open_state s; js; rewrite Hk; cases;
    intros [Hf|Hf]; try discriminate; readings;
    (split; [reflexivity|]); (split; [reflexivity|]); blank.
Qed.


(** X16. A login that succeeds closes the modal behind it: the modal and its
    error are hidden, the form is emptied, the delete buttons of the list
    are displayed.  The roster is not fetched again: no request is sent and
    the list keeps its names and participants. *)
Theorem login_success_closes_modal (s : state) (id : nat) (r : reply) (result : value) :
  parked id (in_flight s) = Some AwaitLogin ->
  status_ok r = true ->
  body_of r = Some result ->
  visible (loginModal (step s (Settle id r))) = false /\
  visible (loginMessage (step s (Settle id r))) = false /\
  loginForm (step s (Settle id r)) = ("", "") /\
  activitiesList (step s (Settle id r)) = map (restyle true) (activitiesList s) /\
  activitySelect (step s (Settle id r)) = activitySelect s /\
  requests (step s (Settle id r)) = requests s.
Proof.
  intros Hk. unfold body_of, status_ok.
  open_state s. js. rewrite Hk. cases; intros; readings;
    try discriminate; try congruence;
    rewrite ?visible_add_hidden; repeat split;
    match goal with H : Js.get ?v _ = None |- _ => destruct v; discriminate end.
Qed.

(** X17. What is typed stays until a success.  The signup form is emptied by
    a signup that succeeds and by nothing else; the login form is emptied
    by the close button, a click on the backdrop and a login that succeeds,
    so a failed login keeps the name and the password typed. *)
Theorem forms_are_emptied_only_on_success (s : state) (e : event) :
  signupForm (step s e) =
    (if signup_succeeds s e then ("", 0)
     else match e with
          | Input_signupForm email selected => (email, selected)
          | _ => signupForm s
          end) /\
  loginForm (step s e) =
    (if dismisses s e then ("", "")
     else match e with
          | Input_loginForm username password => (username, password)
          | _ => loginForm s
          end).
Proof.
  unfold signup_succeeds, dismisses, body_of, status_ok.
  destruct e; open_state s; cases; split; reflexivity.
Qed.

(** *** The gate over time *)

(** Only a session reply writes the session. *)
Lemma session_kept (s : state) (e : event) :
  is_session_reply s e = false ->
  same_session s (step s e).
Proof.
  unfold is_session_reply, same_session.
  destruct e; open_state s; cases; intros; try discriminate; repeat split.
Qed.

(** A closed gate stays closed through anything but an accepted reply. *)
Lemma closed_gate_step (s : state) (e : event) :
  isAuthenticated s = false ->
  accepted s e = false ->
  isAuthenticated (step s e) = false.
Proof.
  unfold accepted, field, body_of, status_ok. intros Hgate. revert Hgate.
  destruct e; open_state s; cases; intros; readings;
    try discriminate; try congruence; reflexivity.
Qed.

Lemma closed_gate_run (s : state) (trace : list event) :
  isAuthenticated s = false ->
  never accepted s trace = true ->
  isAuthenticated (run s trace) = false.
Proof.
  revert s. induction trace as [|e trace IH]; intros s Hgate Hquiet; [exact Hgate|].
  cbn in Hquiet. apply andb_true_iff in Hquiet as [He Hquiet]. apply negb_true_iff in He.
  cbn. apply IH; [|exact Hquiet]. now apply closed_gate_step.
Qed.

Lemma session_kept_run (s : state) (trace : list event) :
  never is_session_reply s trace = true ->
  same_session s (run s trace).
Proof.
  revert s. induction trace as [|e trace IH]; intros s Hquiet; [now repeat split|].
  cbn in Hquiet. apply andb_true_iff in Hquiet as [He Hquiet]. apply negb_true_iff in He.
  destruct (session_kept s e He) as (Ht & Ha & Hl).
  destruct (IH (step s e) Hquiet) as (Ht' & Ha' & Hl').
  unfold same_session, App.run in *. cbn [fold_left]. repeat split; congruence.
Qed.

(** X19. Once a logout has settled, however it settled, every signup and
    every unregister is refused until a login or a verification is
    accepted: whatever else happens in between, the attempt sends nothing
    and shows the login-required notice. *)
Theorem after_logout_actions_are_refused (s : state) (id : nat) (r : reply)
    (trace : list event) (e : event) (text : string) :
  parked id (in_flight s) = Some AwaitLogout ->
  never accepted (step s (Settle id r)) trace = true ->
  attempted (run (step s (Settle id r)) trace) e = Some text ->
  requests (step (run (step s (Settle id r)) trace) e) =
    requests (run (step s (Settle id r)) trace) /\
  messageDiv (step (run (step s (Settle id r)) trace) e) = notice (JStr text) "error".
Proof.
  intros Hk Hquiet.
  assert (Hclosed : isAuthenticated (step s (Settle id r)) = false).
  { open_state s. js. rewrite Hk. cases; reflexivity. }
  pose proof (closed_gate_run _ trace Hclosed Hquiet) as Hgate.
  generalize dependent (run (step s (Settle id r)) trace). intros s1 Hgate Hact.
  destruct e; try discriminate; open_state s1.
  - injection Hact as <-. js. split; reflexivity.
  - js. destruct (nth_error _ k); [|discriminate].
    injection Hact as <-. js. split; reflexivity.
Qed.

(** X20. Once a login has succeeded, every signup and every unregister goes
    out under the token of that login reply until another login, a logout
    or a verification settles: whatever else happens in between, the
    attempt (on a list of the script's own markup) sends one request with
    that token as its bearer, and none when the activity or the email
    cannot be encoded. *)
Theorem after_login_actions_carry_the_new_token (s : state) (id : nat) (r : reply)
    (result : value) (trace : list event) (e : event) (activity email : string) :
  parked id (in_flight s) = Some AwaitLogin ->
  status_ok r = true ->
  body_of r = Some result ->
  never is_session_reply (step s (Settle id r)) trace = true ->
  own_markup (activitiesList (run (step s (Settle id r)) trace)) = true ->
  components (run (step s (Settle id r)) trace) e = Some (activity, email) ->
  requests (step (run (step s (Settle id r)) trace) e) =
    requests (run (step s (Settle id r)) trace) ++
    match encodeURIComponent activity, encodeURIComponent email with
    | Some a, Some b => [action_request e a b (Js.lookup_in result "token")]
    | _, _ => []
    end.
Proof.
  intros Hk Hok Hbody Hquiet.
  assert (H : isAuthenticated (step s (Settle id r)) = true /\
              authToken (step s (Settle id r)) = Js.lookup_in result "token").
  { revert Hok Hbody. unfold body_of, status_ok, Js.lookup_in.
    open_state s. js. rewrite Hk. cases; intros; readings;
      try discriminate; try congruence; repeat split;
      match goal with H : Js.get ?v _ = None |- _ => destruct v; discriminate end. }
  destruct H as (Hgate & Htoken).
  destruct (session_kept_run _ trace Hquiet) as (Ht & Ha & _).
  rewrite <- Htoken, <- Ht. rewrite <- Ha in Hgate. clear Ht Ha Htoken.
  generalize dependent (run (step s (Settle id r)) trace). intros s1 Hgate _ Hact.
  destruct e; try discriminate; open_state s1.
  - injection Hact as <- <-. js.
    encodings; js;
      rewrite ?app_nil_r; reflexivity.
  - js. destruct (nth_error _ k); [|discriminate]. injection Hact as <- <-. js.
    encodings; js;
      rewrite ?app_nil_r; reflexivity.
Qed.

End Coverage.

(** *** The further properties at work *)

Lemma signup_click_keeps_session :
  same_session teacher_page (App.step unused_host teacher_page Submit_signupForm).
Proof.
  exact (session_changes_only_on_replies unused_host teacher_page Submit_signupForm eq_refl).
Defined.

Lemma teacher_login_is_accepted :
  accepted login_in_flight (Settle 1 accepted_login) = true.
Proof.
  exact (gate_opens_only_on_accepted_reply unused_host login_in_flight
           (Settle 1 accepted_login) eq_refl eq_refl).
Defined.

Lemma buttons_follow_auth_on_sample :
  buttons_follow_auth
    (App.run unused_host (App.boot unused_host (Some "3f9c") sample_tab)
       [Settle 1 (served_roster ["a@x.com"]);
        Settle 0 (Response true (Some (JObj [("authenticated", JBool true);
                                             ("username", JStr "teacher")])));
        Click_logoutBtn; Settle 2 NetworkError]) = true.
Proof.
  exact (delete_buttons_follow_auth unused_host (Some "3f9c") sample_tab
           [Settle 1 (served_roster ["a@x.com"]);
            Settle 0 (Response true (Some (JObj [("authenticated", JBool true);
                                                 ("username", JStr "teacher")])));
            Click_logoutBtn; Settle 2 NetworkError]
           eq_refl eq_refl).
Defined.

Lemma stored_token_is_accepted :
  isAuthenticated
    (App.step unused_host returning_page
       (Settle 0 (Response true (Some (JObj [("authenticated", JBool true);
                                             ("username", JStr "teacher")]))))) = true /\
  localStorage
    (App.step unused_host returning_page
       (Settle 0 (Response true (Some (JObj [("authenticated", JBool true);
                                             ("username", JStr "teacher")]))))) =
    Some "3f9c".
Proof.
  destruct (verify_accepted unused_host returning_page 0
              (Response true (Some (JObj [("authenticated", JBool true);
                                          ("username", JStr "teacher")])))
              (JBool true) eq_refl eq_refl eq_refl)
    as (Hgate & _ & Hstored & _).
  split; [exact Hgate|exact Hstored].
Defined.

Lemma torn_roster_fails_and_leaves_an_option :
  activitiesList (App.step unused_host (App.boot unused_host None sample_tab)
                    (Settle 0 (Response true (Some torn_roster)))) = [load_failure] /\
  map option_value
    (activitySelect (App.step unused_host (App.boot unused_host None sample_tab)
                       (Settle 0 (Response true (Some torn_roster))))) =
    [""; "Chess Club"].
Proof.
  destruct (roster_reply_all_or_nothing unused_host (App.boot unused_host None sample_tab) 0
              (Response true (Some torn_roster)) eq_refl)
    as (Hlist & Hselect & _).
  split.
  - exact (proj1 Hlist).
  - rewrite Hselect. reflexivity.
Defined.

Lemma logout_keeps_the_roster :
  listed (activitiesList (App.step unused_host logout_in_flight (Settle 2 NetworkError))) =
    listed (activitiesList logout_in_flight) /\
  activitySelect (App.step unused_host logout_in_flight (Settle 2 NetworkError)) =
    activitySelect logout_in_flight.
Proof.
  destruct (roster_changes_only_on_roster_reply unused_host logout_in_flight
              (Settle 2 NetworkError) eq_refl)
    as (Hselect & _ & Hlisted & _).
  split; [exact Hlisted|exact Hselect].
Defined.

Lemma teacher_click_goes_out_and_surrogate_does_not :
  requests (App.step unused_host teacher_page (Click_deleteBtn 0)) =
    requests teacher_page ++ [DELETE_unregister "Chess%20Club" "a%40x.com" (JStr "3f9c")] /\
  requests (App.step unused_host surrogate_typed Submit_signupForm) = requests surrogate_typed /\
  messageDiv (App.step unused_host surrogate_typed Submit_signupForm) =
    App.notice unused_host (JStr "Failed to sign up. Please try again.") "error" /\
  timers (App.step unused_host surrogate_typed Submit_signupForm) = timers surrogate_typed.
Proof.
  destruct (gate_admits_verified unused_host teacher_page (Click_deleteBtn 0)
              "Chess Club" "a@x.com" eq_refl eq_refl eq_refl)
    as (_ & _ & _ & Hsent).
  destruct (gate_admits_verified unused_host surrogate_typed Submit_signupForm
              "Chess Club" stray_surrogate eq_refl eq_refl eq_refl)
    as (Htimers & _ & _ & Hfailed).
  split; [exact (proj1 Hsent)|]. split; [exact (proj1 (proj1 Hfailed))|].
  split; [exact (proj2 Hfailed)|exact Htimers].
Defined.


Lemma stale_roster_shown_last :
  listed (activitiesList
            (App.run unused_host two_refreshes
               [Settle 5 (served_roster ["b@x.com"]);
                Settle 3 (served_roster ["a@x.com"; "b@x.com"])])) =
    served (chess_roster ["a@x.com"; "b@x.com"]).
Proof.
  exact (last_settled_roster_wins unused_host two_refreshes 5 3
           (served_roster ["b@x.com"]) true
           (chess_roster ["a@x.com"; "b@x.com"])
           eq_refl eq_refl eq_refl eq_refl).
Defined.

Lemma refusal_sets_one_timer :
  clock (App.step unused_host visitor_page Submit_signupForm) = clock visitor_page /\
  (timers (App.step unused_host visitor_page Submit_signupForm) = timers visitor_page \/
   timers (App.step unused_host visitor_page Submit_signupForm) =
     timers visitor_page ++ [((clock visitor_page + 3000)%N, HideMessage)] \/
   timers (App.step unused_host visitor_page Submit_signupForm) =
     timers visitor_page ++ [((clock visitor_page + 5000)%N, HideMessage)]).
Proof.
  exact (one_timer_at_most unused_host visitor_page Submit_signupForm eq_refl).
Defined.

Lemma empty_detail_falls_back_and_empty_list_is_blank :
  textContent (loginMessage (App.step unused_host login_in_flight
                               (Settle 1 (Response false (Some (says "detail" "")))))) <> "" /\
  textContent (loginMessage (App.step unused_host login_in_flight
                               (Settle 1 (Response false (Some (JObj [("detail", JArr [])])))))) =
    "".
Proof.
  destruct (error_notice_blank_only_for_lists unused_host login_in_flight 1 AwaitLogin
              (Response false (Some (says "detail" ""))) eq_refl eq_refl (or_introl eq_refl))
    as (_ & _ & Hfallback).
  destruct (error_notice_blank_only_for_lists unused_host login_in_flight 1 AwaitLogin
              (Response false (Some (JObj [("detail", JArr [])])))
              eq_refl eq_refl (or_introl eq_refl))
    as (_ & _ & Hblank).
  split.
  - exact (proj1 Hfallback eq_refl eq_refl).
  - exact (proj2 Hblank eq_refl).
Defined.

Lemma teacher_login_closes_modal :
  visible (loginModal logged_in) = false /\
  visible (loginMessage logged_in) = false /\
  loginForm logged_in = ("", "") /\
  activitiesList logged_in = map (restyle true) (activitiesList login_in_flight) /\
  activitySelect logged_in = activitySelect login_in_flight /\
  requests logged_in = requests login_in_flight.
Proof.
  exact (login_success_closes_modal unused_host login_in_flight 1 accepted_login
           (JObj [("token", JStr "3f9c"); ("username", JStr "teacher")])
           eq_refl eq_refl eq_refl).
Defined.

Lemma error_body_fails_the_list :
  activitiesList (App.step unused_host (App.boot unused_host None sample_tab)
                    (Settle 0 (Response false (Some (says "detail" "Internal Server Error"))))) =
    [load_failure].
Proof.
  apply (one_bad_entry_fails_the_list unused_host (App.boot unused_host None sample_tab) 0 false
           (says "detail" "Internal Server Error")
           [("detail", JStr "Internal Server Error")] eq_refl eq_refl).
  exists "detail", (JStr "Internal Server Error").
  split; [now left|]. right. right. now left.
Defined.

Lemma signup_after_logout_is_refused :
  requests (App.step unused_host
              (App.run unused_host (App.step unused_host logout_in_flight (Settle 2 NetworkError))
                 [Elapse 1000; Click_loginBtn; Input_signupForm "b@x.com" 1])
              Submit_signupForm) =
    requests logout_in_flight /\
  messageDiv (App.step unused_host
                (App.run unused_host (App.step unused_host logout_in_flight (Settle 2 NetworkError))
                   [Elapse 1000; Click_loginBtn; Input_signupForm "b@x.com" 1])
                Submit_signupForm) =
    App.notice unused_host (JStr "Please login as a teacher to register students.") "error".
Proof.
  exact (after_logout_actions_are_refused unused_host logout_in_flight 2 NetworkError
           [Elapse 1000; Click_loginBtn; Input_signupForm "b@x.com" 1]
           Submit_signupForm "Please login as a teacher to register students."
           eq_refl eq_refl eq_refl).
Defined.

Lemma unregister_after_login_carries_token :
  requests (App.step unused_host
              (App.run unused_host (App.step unused_host login_in_flight (Settle 1 accepted_login))
                 [Elapse 3000; Input_signupForm "b@x.com" 1])
              (Click_deleteBtn 0)) =
    requests login_in_flight ++ [DELETE_unregister "Chess%20Club" "a%40x.com" (JStr "3f9c")].
Proof.
  exact (after_login_actions_carry_the_new_token unused_host login_in_flight 1
           accepted_login (JObj [("token", JStr "3f9c"); ("username", JStr "teacher")])
           [Elapse 3000; Input_signupForm "b@x.com" 1]
           (Click_deleteBtn 0) "Chess Club" "a@x.com"
           eq_refl eq_refl eq_refl eq_refl eq_refl eq_refl).
Defined.

(** *** What the model leaves to the host, and what it does not *)

(** An email with a character reference: the card is the host's. *)
Lemma markup_is_left_to_the_host (host : engine) :
  activitiesList (App.step host (App.boot host None sample_tab)
                    (Settle 0 (served_roster ["a&amp;b@x.com"]))) =
    [MarkupCard "Chess Club" (chess_details ["a&amp;b@x.com"])
       (rendered_buttons host false "Chess Club" (chess_details ["a&amp;b@x.com"]))].
Proof. vm_compute. reflexivity. Qed.

(** A login reply without a token: the variable is [undefined], the stored
    item is the text "undefined". *)
Lemma tokenless_login_stores_undefined :
  authToken (App.step unused_host login_in_flight
               (Settle 1 (Response true (Some (JObj [("username", JStr "teacher")]))))) =
    JUndefined /\
  localStorage (App.step unused_host login_in_flight
                  (Settle 1 (Response true (Some (JObj [("username", JStr "teacher")]))))) =
    Some "undefined".
Proof. split; reflexivity. Qed.

(** A [participants] that is an object has no positive [length]: the card
    says that there are no participants. *)
Lemma object_participants_render :
  listed (activitiesList
            (App.step unused_host (App.boot unused_host None sample_tab)
               (Settle 0 (Response true
                  (Some (JObj [("Chess Club",
                                JObj [("participants", JObj [("a", JNum 1)])])])))))) =
    [("Chess Club", [])].
Proof. reflexivity. Qed.
